(** * quickstart.go: the local credential cache with interactive fallback

    A shallow embedding of [src/quickstart.go] (OAuth2 quickstart for the
    Apps Script execution API) and the proofs of its specification.

    The program is sequential glue around the Go standard library, the
    [oauth2] package and the generated [script/v1] client.  The
    functions of the source are embedded as actions of a small state and
    failure monad over a [World]: a file system with permission bits, umask
    and free space, the identity of the current user, the pending console
    input, and the trace of console and network interactions.  Library
    functions whose behaviour does not depend on this program (the JSON
    codec, the token endpoint, the remote call) are the fields of the class
    [Externals]; every theorem holds for all of them. *)

From Stdlib Require Import ZArith Ascii String List Lia Bool DecimalString.
From stdpp Require Import gmap strings list.

Set Default Proof Using "Type".

(** ** Go values *)

(** A Go [error] value, kept as its message. *)
Definition error := string.

(** A Go [(T, error)] pair in which exactly one side is meaningful. *)
Inductive result (A : Type) : Type :=
| Ok (a : A)
| Err (e : error).
Arguments Ok {A} a.
Arguments Err {A} e.

(** A cleaned absolute path, as the list of its components below the root. *)
Abbreviation path := (list string).

(** The textual form of a path, as [%s] prints it. *)
Definition path_string (p : path) : string :=
  "/" +:+ String.concat "/" p.

(** [filepath.Join] of a directory and one further element. *)
Definition filepath_Join (dir : path) (elem : string) : path := dir ++ [elem].

(** The first [n] bytes of a string and what follows them. *)
Fixpoint take_bytes (n : nat) (s : string) : string :=
  match n, s with
  | S n', String c s' => String c (take_bytes n' s')
  | _, _ => EmptyString
  end.

Fixpoint drop_bytes (n : nat) (s : string) : string :=
  match n, s with
  | S n', String _ s' => drop_bytes n' s'
  | _, _ => s
  end.

(** [strings.Contains]. *)
Fixpoint strings_Contains (s substr : string) : bool :=
  String.prefix substr s ||
  match s with
  | EmptyString => false
  | String _ s' => strings_Contains s' substr
  end.

(** [strings.Join]. *)
Definition strings_Join (elems : list string) (sep : string) : string :=
  String.concat sep elems.

(** [sub] occurs in [s]. *)
Definition occurs_in (sub s : string) : Prop :=
  exists before after, s = before +:+ sub +:+ after.

(** ** Package [net/url] *)

Module url.

Definition is_alnum (c : ascii) : bool :=
  let n := nat_of_ascii c in
  ((97 <=? n) && (n <=? 122)) || ((65 <=? n) && (n <=? 90))
  || ((48 <=? n) && (n <=? 57)).

(** [shouldEscape(c, encodeQueryComponent)]: everything but the unreserved
    characters of RFC 3986 is escaped in a query component. *)
Definition shouldEscape (c : ascii) : bool :=
  if is_alnum c then false
  else match c with
       | "-" | "_" | "." | "~" => false
       | _ => true
       end%char.

Definition upperhex : string := "0123456789ABCDEF".

Definition hex_digit (n : nat) : ascii :=
  match String.get n upperhex with
  | Some c => c
  | None => "0"%char
  end.

(** [QueryEscape]: a space becomes [+], any other escaped byte [%XX]. *)
Fixpoint QueryEscape (s : string) : string :=
  match s with
  | EmptyString => EmptyString
  | String c s' =>
      if shouldEscape c then
        if Ascii.eqb c " "%char then String "+"%char (QueryEscape s')
        else
          let n := nat_of_ascii c in
          String "%"%char
            (String (hex_digit (n / 16))
               (String (hex_digit (n mod 16)) (QueryEscape s')))
      else String c (QueryEscape s')
  end.

(** [url.Values] is a [map[string][]string] that [Encode] walks in the
    order of its sorted keys: the map is kept as the association list of
    its bindings in that order, one binding per key. *)
Definition Values := list (string * list string).

(** [v.Set(key, value)]: [v[key] = []string{value}]. *)
Fixpoint Set_ (v : Values) (key value : string) : Values :=
  match v with
  | [] => [(key, [value])]
  | (k, vs) :: v' =>
      match String.compare key k with
      | Lt => (key, [value]) :: (k, vs) :: v'
      | Eq => (k, [value]) :: v'
      | Gt => (k, vs) :: Set_ v' key value
      end
  end.

(** The [key=value] pairs of [Encode], in order. *)
Definition pairs (v : Values) : list string :=
  flat_map (fun kv =>
              map (fun x => QueryEscape (fst kv) +:+ "=" +:+ QueryEscape x)
                  (snd kv)) v.

(** [v.Encode()]: the pairs separated by [&]. *)
Definition Encode (v : Values) : string := String.concat "&" (pairs v).

End url.

(** ** Package [oauth2] *)

Module oauth2.

Record Endpoint := { AuthURL : string; TokenURL : string }.

Record Config := {
  ClientID : string;
  ClientSecret : string;
  Endpoint_ : Endpoint;
  RedirectURL : string;
  Scopes : list string;
}.

(** The credential: access token, token type, refresh token and expiry
    (an instant, in seconds). *)
Record Token := {
  AccessToken : string;
  TokenType : string;
  RefreshToken : string;
  Expiry : Z;
}.

(** [&oauth2.Token{}], the zero value. *)
Definition zero_Token : Token :=
  {| AccessToken := ""; TokenType := ""; RefreshToken := ""; Expiry := 0 |}.

(** An [AuthCodeOption] sets one parameter of the authorization URL. *)
Record AuthCodeOption := SetAuthURLParam { param_key : string; param_value : string }.

Definition AccessTypeOffline : AuthCodeOption :=
  SetAuthURLParam "access_type" "offline".

Definition setValue (opt : AuthCodeOption) (v : url.Values) : url.Values :=
  url.Set_ v (param_key opt) (param_value opt).

Definition set_nonempty (v : url.Values) (key value : string) : url.Values :=
  if String.eqb value "" then v else url.Set_ v key value.

(** [Config.AuthCodeURL(state, opts...)]. *)
Definition AuthCodeURL (c : Config) (state : string)
    (opts : list AuthCodeOption) : string :=
  let v := [("client_id", [ClientID c]); ("response_type", ["code"])] in
  let v := set_nonempty v "redirect_uri" (RedirectURL c) in
  let v := match Scopes c with
           | [] => v
           | _ => url.Set_ v "scope" (strings_Join (Scopes c) " ")
           end in
  let v := set_nonempty v "state" state in
  let v := fold_left (fun v opt => setValue opt v) opts v in
  AuthURL (Endpoint_ c)
  +:+ (if strings_Contains (AuthURL (Endpoint_ c)) "?" then "&" else "?")
  +:+ url.Encode v.

End oauth2.

(** ** The world the program runs in *)

(** A file system entry with its permission bits. *)
Inductive node : Type :=
| Dir (mode : Z)
| File (mode : Z) (data : string).

Definition node_mode (n : node) : Z :=
  match n with Dir m => m | File m _ => m end.

(** [user.User], as far as the program reads it. *)
Record User := { Username : string; HomeDir : path }.

Inductive Context : Type := context_Background | oauth2_NoContext.

(** What [config.Client(ctx, tok)] builds: an HTTP client that carries the
    token it was given. *)
Record Client := {
  client_ctx : Context;
  client_config : oauth2.Config;
  client_token : oauth2.Token;
}.

(** The console and network interactions of a run, oldest first. *)
Inductive Event : Type :=
| Printed (s : string)                              (* fmt.Printf *)
| Scanned (r : result string)                       (* fmt.Scan on stdin *)
| Exchanged (code : string) (r : result oauth2.Token) (* token endpoint *)
| RanScript (scriptId function : string).           (* scripts.run *)

Record World := mkWorld {
  fs : gmap path node;          (* every entry, keyed by its path *)
  umask : Z;                    (* the process's file mode creation mask *)
  free : nat;                   (* bytes of file data the volume can take *)
  cwd : path;                   (* working directory *)
  current_user : result User;   (* what user.Current() reports *)
  stdin : string;               (* console input not yet consumed *)
  trace : list Event;
}.

Definition with_fs (m : gmap path node) (n : nat) (w : World) : World :=
  mkWorld m (umask w) n (cwd w) (current_user w) (stdin w) (trace w).

Definition with_stdin (s : string) (w : World) : World :=
  mkWorld (fs w) (umask w) (free w) (cwd w) (current_user w) s (trace w).

Definition emit (e : Event) (w : World) : World :=
  mkWorld (fs w) (umask w) (free w) (cwd w) (current_user w) (stdin w)
          (trace w ++ [e]).

(** ** Actions: state passing with fatal exit *)

(** A run either goes on with a value or has called [log.Fatalf], which
    prints the message and exits with status 1. *)
Inductive outcome (A : Type) : Type :=
| Done (a : A)
| Fatal (msg : string).
Arguments Done {A} a.
Arguments Fatal {A} msg.

Definition M (A : Type) : Type := World -> outcome A * World.

Definition ret {A} (a : A) : M A := fun w => (Done a, w).

Definition bind {A B} (m : M A) (k : A -> M B) : M B :=
  fun w =>
    match m w with
    | (Done a, w') => k a w'
    | (Fatal msg, w') => (Fatal msg, w')
    end.

Declare Scope go_scope.
Delimit Scope go_scope with go.
Notation "x <- m ;; k" := (bind m (fun x => k))
  (at level 100, m at next level, right associativity) : go_scope.
Notation "m ;;; k" := (bind m (fun _ => k))
  (at level 100, right associativity) : go_scope.
Local Open Scope go_scope.

(** The exit status of a finished process. *)
Definition exit_status {A} (o : outcome A) : Z :=
  match o with Done _ => 0%Z | Fatal _ => 1%Z end.

(** A newline. *)
Definition nl : string := String (ascii_of_nat 10) EmptyString.

(** ** Package [os] *)

Module os.

Definition octal (a b c : Z) : Z := (a * 64 + b * 8 + c)%Z.

(** Owner permission bits. *)
Definition S_IRUSR : Z := octal 4 0 0.
Definition S_IWUSR : Z := octal 2 0 0.
Definition S_IXUSR : Z := octal 1 0 0.

(** Open flags (Linux values). *)
Definition O_RDONLY : Z := 0.
Definition O_WRONLY : Z := 1.
Definition O_RDWR : Z := 2.
Definition O_CREATE : Z := 64.
Definition O_TRUNC : Z := 512.

Definition ENOENT : error := "no such file or directory".
Definition EACCES : error := "permission denied".
Definition ENOTDIR : error := "not a directory".
Definition EISDIR : error := "is a directory".
Definition ENOSPC : error := "no space left on device".
Definition EBADF : error := "bad file descriptor".

Definition PathError (op : string) (p : path) (e : error) : error :=
  op +:+ " " +:+ path_string p +:+ ": " +:+ e.

(** The entries are owned by the user the process runs as, so access is
    decided by the owner bits. *)
Definition has_perm (mode bits : Z) : bool := (Z.land mode bits =? bits)%Z.

Definition wants_read (flag : Z) : bool :=
  let acc := Z.land flag 3 in (acc =? O_RDONLY)%Z || (acc =? O_RDWR)%Z.

Definition wants_write (flag : Z) : bool :=
  let acc := Z.land flag 3 in (acc =? O_WRONLY)%Z || (acc =? O_RDWR)%Z.

Definition has_flag (flag bit : Z) : bool := negb (Z.land flag bit =? 0)%Z.

(** Path resolution: every directory on the way from [pre] down to the
    last element of [rest] must exist and be searchable. *)
Fixpoint walk (m : gmap path node) (pre : path) (rest : list string)
  : result unit :=
  match rest with
  | [] => Ok tt
  | c :: rest' =>
      match m !! pre with
      | Some (Dir mode) =>
          if has_perm mode S_IXUSR then walk m (pre ++ [c]) rest'
          else Err EACCES
      | Some (File _ _) => Err ENOTDIR
      | None => Err ENOENT
      end
  end.

(** [stat]: the entry a path resolves to. *)
Definition stat (m : gmap path node) (p : path) : result node :=
  match walk m [] p with
  | Err e => Err e
  | Ok _ => match m !! p with
            | Some n => Ok n
            | None => Err ENOENT
            end
  end.

Definition parent (p : path) : path := removelast p.

(** An open file: the entry it refers to and the flags it was opened
    with. *)
Record Handle := { handle_path : path; handle_flag : Z }.

(** [os.OpenFile(name, flag, perm)].  An existing file keeps its mode and
    is emptied under [O_TRUNC]; a missing one is created under [O_CREATE]
    in a writable directory with mode [perm] less the umask. *)
Definition OpenFile (name : path) (flag perm : Z) : M (result Handle) :=
  fun w =>
    let h := {| handle_path := name; handle_flag := flag |} in
    let denied e := (Done (Err (PathError "open" name e)), w) in
    match walk (fs w) [] name with
    | Err e => denied e
    | Ok _ =>
        match fs w !! name with
        | Some (File mode data) =>
            if (negb (wants_read flag) || has_perm mode S_IRUSR)
               && (negb (wants_write flag) || has_perm mode S_IWUSR)
            then
              if has_flag flag O_TRUNC && wants_write flag
              then (Done (Ok h),
                    with_fs (<[name := File mode ""]> (fs w))
                            (free w + String.length data) w)
              else (Done (Ok h), w)
            else denied EACCES
        | Some (Dir mode) =>
            if wants_write flag then denied EISDIR
            else if has_perm mode S_IRUSR then (Done (Ok h), w)
                 else denied EACCES
        | None =>
            if has_flag flag O_CREATE then
              match name, fs w !! parent name with
              | _ :: _, Some (Dir dmode) =>
                  if has_perm dmode S_IWUSR
                  then (Done (Ok h),
                        with_fs (<[name := File (Z.ldiff perm (umask w)) ""]>
                                   (fs w))
                                (free w) w)
                  else denied EACCES
              | _, _ => denied ENOENT
              end
            else denied ENOENT
        end
    end.

(** [os.Open(name)] is [OpenFile(name, O_RDONLY, 0)]. *)
Definition Open (name : path) : M (result Handle) := OpenFile name O_RDONLY 0.

(** Reading an open file from its start to its end. *)
Definition ReadAll (f : Handle) : M (result string) :=
  fun w =>
    if wants_read (handle_flag f) then
      match fs w !! handle_path f with
      | Some (File _ data) => (Done (Ok data), w)
      | Some (Dir _) =>
          (Done (Err (PathError "read" (handle_path f) EISDIR)), w)
      | None => (Done (Err (PathError "read" (handle_path f) EBADF)), w)
      end
    else (Done (Err (PathError "read" (handle_path f) EBADF)), w).

(** [f.Write(b)] at the end of the file, where the handle of a freshly
    truncated or created file stands.  When the volume cannot take all of
    [b], what fits is written and the error reported. *)
Definition Write (f : Handle) (b : string) : M (result nat) :=
  fun w =>
    let p := handle_path f in
    if wants_write (handle_flag f) then
      match fs w !! p with
      | Some (File mode data) =>
          if String.length b <=? free w
          then (Done (Ok (String.length b)),
                with_fs (<[p := File mode (data +:+ b)]> (fs w))
                        (free w - String.length b) w)
          else (Done (Err (PathError "write" p ENOSPC)),
                with_fs (<[p := File mode (data +:+ take_bytes (free w) b)]>
                           (fs w))
                        0 w)
      | _ => (Done (Err (PathError "write" p EBADF)), w)
      end
    else (Done (Err (PathError "write" p EBADF)), w).

(** [f.Close()]. *)
Definition Close (f : Handle) : M unit := ret tt.

(** The directories [MkdirAll] makes on its way down from [pre]: each
    missing one is created, with mode [perm] less the umask, in its
    (searchable, writable) parent. *)
Fixpoint mkdir_walk (perm mask : Z) (pre : path) (rest : list string)
    (m : gmap path node) : gmap path node * option error :=
  match rest with
  | [] => (m, None)
  | c :: rest' =>
      let p := pre ++ [c] in
      match m !! pre with
      | Some (Dir mode) =>
          if has_perm mode S_IXUSR then
            match m !! p with
            | Some (Dir _) => mkdir_walk perm mask p rest' m
            | Some (File _ _) => (m, Some (PathError "mkdir" p ENOTDIR))
            | None =>
                if has_perm mode S_IWUSR
                then mkdir_walk perm mask p rest'
                       (<[p := Dir (Z.ldiff perm mask)]> m)
                else (m, Some (PathError "mkdir" p EACCES))
            end
          else (m, Some (PathError "mkdir" p EACCES))
      | Some (File _ _) => (m, Some (PathError "mkdir" p ENOTDIR))
      | None => (m, Some (PathError "mkdir" p ENOENT))
      end
  end.

(** [os.MkdirAll(path, perm)]: nothing happens when the directory is
    there already. *)
Definition MkdirAll (p : path) (perm : Z) : M (option error) :=
  fun w =>
    let '(m, e) := mkdir_walk perm (umask w) [] p (fs w) in
    (Done e, with_fs m (free w) w).

End os.

(** [user.Current()]. *)
Definition user_Current : M (result User) := fun w => (Done (current_user w), w).

(** [fmt.Printf] with its arguments already formatted. *)
Definition fmt_Printf (s : string) : M unit := fun w => (Done tt, emit (Printed s) w).

(** [log.Fatalf]. *)
Definition log_Fatalf {A} (msg : string) : M A := fun w => (Fatal msg, w).

(** [config.Client(ctx, tok)]. *)
Definition Config_Client (ctx : Context) (config : oauth2.Config)
    (tok : oauth2.Token) : Client :=
  {| client_ctx := ctx; client_config := config; client_token := tok |}.

(** ** Package [script/v1] *)

Module script.

Record Status := { Code : Z; Message : string }.

(** The reply of [scripts.run]: the error the invoked function raised, if
    any, and otherwise its raw JSON result. *)
Record Operation := { Error : option Status; Response : string }.

Record ExecutionRequest := { Function_ : string }.

Record Service := { service_client : Client }.

End script.

(** ** External collaborators

    What the libraries and the remote servers answer.  The program only
    passes these answers on, so they are left open. *)

Class Externals := {
  (** [json.Marshal] of a token *)
  json_Marshal : oauth2.Token -> result string;
  (** decoding the first JSON value of a stream into a fresh token *)
  json_Unmarshal : string -> result oauth2.Token;
  (** [fmt.Scan] into a string: the next space-delimited token of the
      pending input, and the input left after it *)
  scan_token : string -> result string * string;
  (** the token endpoint's answer to an authorization code *)
  token_endpoint : Context -> oauth2.Config -> string -> result oauth2.Token;
  google_ConfigFromJSON : string -> list string -> result oauth2.Config;
  script_New : Client -> result script.Service;
  (** the answer to [srv.Scripts.Run(scriptId, req).Do()] *)
  scripts_run : script.Service -> string -> script.ExecutionRequest ->
                result script.Operation;
  (** [%s] applied to a [*script.Status] *)
  format_Status : script.Status -> string;
  (** [RawMessage.MarshalJSON] *)
  RawMessage_MarshalJSON : string -> string;
}.

(** ** The program *)

Section Program.

Context {ext : Externals}.

(** [json.NewEncoder(f).Encode(v)]: the value is marshalled first and
    then written, followed by a newline, in one write. *)
Definition json_Encode (f : os.Handle) (v : oauth2.Token) : M (option error) :=
  match json_Marshal v with
  | Err e => ret (Some e)
  | Ok s =>
      r <- os.Write f (s +:+ nl);;
      ret (match r with Ok _ => None | Err e => Some e end)
  end.

(** [json.NewDecoder(f).Decode(t)]. *)
Definition json_Decode (f : os.Handle) : M (result oauth2.Token) :=
  r <- os.ReadAll f;;
  ret (match r with Ok s => json_Unmarshal s | Err e => Err e end).

(** [fmt.Scan(&code)]. *)
Definition fmt_Scan : M (result string) :=
  fun w =>
    let '(r, rest) := scan_token (stdin w) in
    (Done r, emit (Scanned r) (with_stdin rest w)).

(** [config.Exchange(ctx, code)]. *)
Definition Config_Exchange (ctx : Context) (config : oauth2.Config)
    (code : string) : M (result oauth2.Token) :=
  fun w =>
    let r := token_endpoint ctx config code in
    (Done r, emit (Exchanged code r) w).

(** [srv.Scripts.Run(scriptId, req).Do()]. *)
Definition Scripts_Run_Do (srv : script.Service) (scriptId : string)
    (req : script.ExecutionRequest) : M (result script.Operation) :=
  fun w =>
    (Done (scripts_run srv scriptId req),
     emit (RanScript scriptId (script.Function_ req)) w).

(** [ioutil.ReadFile] of a name relative to the working directory: the
    file is opened for reading and read to its end.  The errors carry the
    name as it was passed. *)
Definition ioutil_ReadFile (name : string) : M (result string) :=
  fun w =>
    let failed op e := (Done (Err (op +:+ " " +:+ name +:+ ": " +:+ e)), w) in
    match os.stat (fs w) (filepath_Join (cwd w) name) with
    | Err e => failed "open" e
    | Ok (File mode data) =>
        if os.has_perm mode os.S_IRUSR then (Done (Ok data), w)
        else failed "open" os.EACCES
    | Ok (Dir mode) =>
        if os.has_perm mode os.S_IRUSR then failed "read" os.EISDIR
        else failed "open" os.EACCES
    end.

Definition tokenCacheDir (usr : User) : path :=
  filepath_Join (HomeDir usr) ".credentials".

Definition cachePath (usr : User) : path :=
  filepath_Join (tokenCacheDir usr)
                (url.QueryEscape "script-go-quickstart.json").

(** [tokenCacheFile] generates credential file path/filename. *)
Definition tokenCacheFile : M (result path) :=
  r <- user_Current;;
  match r with
  | Err e => ret (Err e)
  | Ok usr =>
      _ <- os.MkdirAll (tokenCacheDir usr) (os.octal 7 0 0);;
      ret (Ok (cachePath usr))
  end.

(** [tokenFromFile] retrieves a Token from a given file path. *)
Definition tokenFromFile (file : path) : M (result oauth2.Token) :=
  r <- os.Open file;;
  match r with
  | Err e => ret (Err e)
  | Ok f =>
      r <- json_Decode f;;
      os.Close f;;;
      ret r
  end.

Definition authorize_prompt (authURL : string) : string :=
  "Go to the following link in your browser then type the "
  +:+ "authorization code: " +:+ nl +:+ authURL +:+ nl.

(** [getTokenFromWeb] uses Config to request a Token. *)
Definition getTokenFromWeb (config : oauth2.Config) : M oauth2.Token :=
  let authURL :=
    oauth2.AuthCodeURL config "state-token" [oauth2.AccessTypeOffline] in
  fmt_Printf (authorize_prompt authURL);;;
  r <- fmt_Scan;;
  match r with
  | Err e => log_Fatalf ("Unable to read authorization code " +:+ e)
  | Ok code =>
      r <- Config_Exchange oauth2_NoContext config code;;
      match r with
      | Err e => log_Fatalf ("Unable to retrieve token from web " +:+ e)
      | Ok tok => ret tok
      end
  end.

(** [saveToken] uses a file path to create a file and store the token in
    it. *)
Definition saveToken (file : path) (token : oauth2.Token) : M unit :=
  fmt_Printf ("Saving credential file to: " +:+ path_string file +:+ nl);;;
  r <- os.OpenFile file
         (Z.lor os.O_RDWR (Z.lor os.O_CREATE os.O_TRUNC)) (os.octal 6 0 0);;
  match r with
  | Err e => log_Fatalf ("Unable to cache oauth token: " +:+ e)
  | Ok f =>
      _ <- json_Encode f token;;
      os.Close f
  end.

(** [getClient] uses a Context and Config to retrieve a Token then
    generate a Client. *)
Definition getClient (ctx : Context) (config : oauth2.Config) : M Client :=
  r <- tokenCacheFile;;
  match r with
  | Err e =>
      log_Fatalf ("Unable to get path to cached credential file. " +:+ e)
  | Ok cacheFile =>
      r <- tokenFromFile cacheFile;;
      tok <- match r with
             | Err _ =>
                 tok <- getTokenFromWeb config;;
                 saveToken cacheFile tok;;;
                 ret tok
             | Ok tok => ret tok
             end;;
      ret (Config_Client ctx config tok)
  end.

Definition main : M unit :=
  let ctx := context_Background in
  r <- ioutil_ReadFile "client_secret.json";;
  match r with
  | Err e => log_Fatalf ("Unable to read client secret file: " +:+ e)
  | Ok b =>
      match google_ConfigFromJSON b ["https://www.googleapis.com/auth/drive"] with
      | Err e =>
          log_Fatalf ("Unable to parse client secret file to config: " +:+ e)
      | Ok config =>
          let scriptId := "Mn_YoQoNj_iufS59FmWsY-JgYYRqhh78z" in
          client <- getClient ctx config;;
          match script_New client with
          | Err e => log_Fatalf ("Unable to retrieve script Client " +:+ e)
          | Ok srv =>
              let req := {| script.Function_ := "getFoldersUnderRoot" |} in
              r <- Scripts_Run_Do srv scriptId req;;
              match r with
              | Err e =>
                  log_Fatalf ("Unable to execute Apps Script function. " +:+ e)
              | Ok resp =>
                  match script.Error resp with
                  | Some st => fmt_Printf (format_Status st)
                  | None =>
                      fmt_Printf (RawMessage_MarshalJSON (script.Response resp))
                  end
              end
          end
      end
  end.

End Program.

(** ** What the file operations answer

    Pure readings of the file system, against which the actions are
    characterised below. *)

Section Answers.

Context {ext : Externals}.

(** What [os.Open] answers. *)
Definition open_answer (m : gmap path node) (name : path) : result os.Handle :=
  match os.walk m [] name with
  | Err e => Err (os.PathError "open" name e)
  | Ok _ =>
      match m !! name with
      | Some n =>
          if os.has_perm (node_mode n) os.S_IRUSR
          then Ok {| os.handle_path := name; os.handle_flag := os.O_RDONLY |}
          else Err (os.PathError "open" name os.EACCES)
      | None => Err (os.PathError "open" name os.ENOENT)
      end
  end.

(** What [tokenFromFile] answers. *)
Definition read_answer (m : gmap path node) (file : path)
  : result oauth2.Token :=
  match open_answer m file with
  | Err e => Err e
  | Ok _ =>
      match m !! file with
      | Some (File _ data) => json_Unmarshal data
      | Some (Dir _) => Err (os.PathError "read" file os.EISDIR)
      | None => Err (os.PathError "read" file os.EBADF)
      end
  end.

(** The bytes [Encode] hands to [Write]: none when marshalling fails. *)
Definition encoding (tok : oauth2.Token) : string :=
  match json_Marshal tok with
  | Ok s => s +:+ nl
  | Err _ => EmptyString
  end.

(** The size of the file at a path, 0 when there is none. *)
Definition file_size (m : gmap path node) (file : path) : nat :=
  match m !! file with
  | Some (File _ data) => String.length data
  | _ => 0
  end.

(** The events of a run: what the trace has gained. *)
Definition events_of (w w' : World) (evs : list Event) : Prop :=
  trace w' = trace w ++ evs.

Definition is_console_read (e : Event) : bool :=
  match e with Scanned _ => true | _ => false end.

End Answers.

(** ** A concrete environment

    One instance of the collaborators and a few machines, on which the
    theorems below are run. *)

Module demo.

Definition is_space (c : ascii) : bool :=
  let n := nat_of_ascii c in ((9 <=? n) && (n <=? 13)) || (n =? 32).

Fixpoint skip_space (s : string) : string :=
  match s with
  | String c s' => if is_space c then skip_space s' else s
  | EmptyString => EmptyString
  end.

Fixpoint split_token (s : string) : string * string :=
  match s with
  | String c s' =>
      if is_space c then (EmptyString, s)
      else let '(t, rest) := split_token s' in (String c t, rest)
  | EmptyString => (EmptyString, EmptyString)
  end.

Definition scan (s : string) : result string * string :=
  match skip_space s with
  | EmptyString => (Err "EOF", EmptyString)
  | s' => let '(t, rest) := split_token s' in (Ok t, drop_bytes 1 rest)
  end.

Definition quoted (s : string) : string :=
  let dq := String (ascii_of_nat 34) EmptyString in dq +:+ s +:+ dq.

Definition field (name value : string) : string :=
  quoted name +:+ ":" +:+ quoted value.

Definition render (t : oauth2.Token) : string :=
  "{" +:+ field "access_token" (oauth2.AccessToken t)
  +:+ "," +:+ field "token_type" (oauth2.TokenType t)
  +:+ "," +:+ field "refresh_token" (oauth2.RefreshToken t)
  +:+ "," +:+ field "expiry"
                    (DecimalString.NilZero.string_of_int
                       (Z.to_int (oauth2.Expiry t)))
  +:+ "}".

Definition token : oauth2.Token :=
  {| oauth2.AccessToken := "ya29.a0Af";
     oauth2.TokenType := "Bearer";
     oauth2.RefreshToken := "1//0gLx";
     oauth2.Expiry := 1477900000 |}.

Definition config : oauth2.Config :=
  {| oauth2.ClientID := "1234-abc.apps.googleusercontent.com";
     oauth2.ClientSecret := "s3cret";
     oauth2.Endpoint_ :=
       {| oauth2.AuthURL := "https://accounts.google.com/o/oauth2/auth";
          oauth2.TokenURL := "https://accounts.google.com/o/oauth2/token" |};
     oauth2.RedirectURL := "urn:ietf:wg:oauth:2.0:oob";
     oauth2.Scopes := ["https://www.googleapis.com/auth/drive"] |}.

Definition script_error : script.Status :=
  {| script.Code := 3; script.Message := "ScriptError" |}.

Definition externals : Externals := {|
  json_Marshal t := Ok (render t);
  json_Unmarshal s :=
    if String.eqb s (render token +:+ nl) then Ok token
    else if String.eqb s "{}" || String.eqb s "null" then Ok oauth2.zero_Token
    else if String.eqb s "" then Err "EOF"
    else Err "invalid character";
  scan_token := scan;
  token_endpoint _ _ code :=
    if String.eqb code "4/valid" then Ok token
    else Err "oauth2: cannot fetch token: 400 Bad Request";
  google_ConfigFromJSON _ scopes := Ok config;
  script_New c := Ok {| script.service_client := c |};
  scripts_run _ _ _ :=
    Ok {| script.Error := Some script_error; script.Response := "" |};
  format_Status st := script.Message st;
  RawMessage_MarshalJSON m := m;
|}.

Definition gopher : User :=
  {| Username := "gopher"; HomeDir := ["home"; "gopher"] |}.

Definition home_tree : gmap path node :=
  <[ ["home"; "gopher"] := Dir (os.octal 7 5 5) ]>
    (<[ ["home"] := Dir (os.octal 7 5 5) ]>
       (<[ [] := Dir (os.octal 7 5 5) ]> ∅)).

Definition machine (m : gmap path node) (space : nat) (input : string)
  : World :=
  {| fs := m; umask := os.octal 0 2 2; free := space;
     cwd := ["home"; "gopher"]; current_user := Ok gopher;
     stdin := input; trace := [] |}.

(** A cache directory holding [data] with the given modes. *)
Definition with_cache (dmode fmode : Z) (data : string) : gmap path node :=
  <[ cachePath gopher := File fmode data ]>
    (<[ tokenCacheDir gopher := Dir dmode ]> home_tree).

(** First run: nothing cached, the user types a good code. *)
Definition first_run : World := machine home_tree 4096 ("4/valid" +:+ nl).

(** As [first_run], on a volume with no room left. *)
Definition disk_full : World := machine home_tree 0 ("4/valid" +:+ nl).

(** As [first_run], with a code the server rejects. *)
Definition bad_code : World := machine home_tree 4096 ("oops" +:+ nl).

(** A run that finds the credential of an earlier one. *)
Definition cached : World :=
  machine (with_cache (os.octal 7 0 0) (os.octal 6 0 0) (render token +:+ nl))
          4096 EmptyString.

(** A cache file that does not hold a credential, world-readable. *)
Definition stale : World :=
  machine (with_cache (os.octal 7 5 5) (os.octal 6 4 4) "garbage")
          4096 ("4/valid" +:+ nl).


(** As [cached], with the client secret in the working directory. *)
Definition installed : World :=
  machine (<[ ["home"; "gopher"; "client_secret.json"]
              := File (os.octal 6 0 0) "{}" ]>
             (with_cache (os.octal 7 0 0) (os.octal 6 0 0)
                         (render token +:+ nl)))
          4096 EmptyString.

(** [getClient] and [main] with these collaborators. *)
Definition acquire : M Client :=
  @getClient externals context_Background config.

Definition program : M unit := @main externals.

(** Further machines. *)

(** No user database: [user.Current] fails. *)
Definition no_user : World :=
  {| fs := home_tree; umask := os.octal 0 2 2; free := 4096;
     cwd := ["home"; "gopher"];
     current_user := Err "user: Current not implemented on linux/amd64";
     stdin := "4/valid" +:+ nl; trace := [] |}.

(** A root that nobody may write to and no home below it: the cache
    directory cannot be made. *)
Definition locked_root : World :=
  machine (<[ [] := Dir (os.octal 5 5 5) ]> ∅) 4096 ("4/valid" +:+ nl).

(** A directory sits where the cache file should be. *)
Definition cache_is_dir : World :=
  machine (<[ cachePath gopher := Dir (os.octal 7 0 0) ]>
             (<[ tokenCacheDir gopher := Dir (os.octal 7 0 0) ]> home_tree))
          4096 ("4/valid" +:+ nl).

(** As [first_run], with the console at end of input. *)
Definition no_input : World := machine home_tree 4096 EmptyString.

(** A cache file that holds no credential and may only be read. *)
Definition read_only_cache : World :=
  machine (with_cache (os.octal 7 0 0) (os.octal 4 0 0) "garbage")
          4096 ("4/valid" +:+ nl).

(** A second credential. *)
Definition token2 : oauth2.Token :=
  {| oauth2.AccessToken := "ya29.c1Zz";
     oauth2.TokenType := "Bearer";
     oauth2.RefreshToken := "";
     oauth2.Expiry := 1478000000 |}.

(** The collaborators of [externals], with a remote function that
    succeeds. *)
Definition externals_reply : Externals := {|
  json_Marshal := @json_Marshal externals;
  json_Unmarshal := @json_Unmarshal externals;
  scan_token := scan;
  token_endpoint := @token_endpoint externals;
  google_ConfigFromJSON := @google_ConfigFromJSON externals;
  script_New := @script_New externals;
  scripts_run _ _ _ :=
    Ok {| script.Error := None; script.Response := "{}" |};
  format_Status := @format_Status externals;
  RawMessage_MarshalJSON m := m;
|}.

(** The collaborators of [externals], with a parser that rejects the
    client secret. *)
Definition externals_bad_secret : Externals := {|
  json_Marshal := @json_Marshal externals;
  json_Unmarshal := @json_Unmarshal externals;
  scan_token := scan;
  token_endpoint := @token_endpoint externals;
  google_ConfigFromJSON _ _ := Err "oauth2/google: no credentials found";
  script_New := @script_New externals;
  scripts_run := @scripts_run externals;
  format_Status := @format_Status externals;
  RawMessage_MarshalJSON m := m;
|}.


(** A fresh installation whose user types a code the server rejects. *)
Definition rejected : World :=
  machine (<[ ["home"; "gopher"; "client_secret.json"]
              := File (os.octal 6 0 0) "{}" ]> home_tree)
          4096 ("oops" +:+ nl).

End demo.

(** * Proofs *)

(** ** Strings *)

Lemma append_String (c : ascii) (a b : string) :
  String c a +:+ b = String c (a +:+ b).
Proof. reflexivity. Qed.

Lemma take_drop_bytes (n : nat) (s : string) :
  take_bytes n s +:+ drop_bytes n s = s.
Proof.
  revert s. induction n as [|n IH]; intros [|c s]; simpl; try reflexivity.
  now rewrite append_String, IH.
Qed.

Lemma take_bytes_all (n : nat) (s : string) :
  String.length s <= n -> take_bytes n s = s.
Proof.
  revert s. induction n as [|n IH]; intros [|c s]; simpl; intros Hn;
    try reflexivity; try lia.
  rewrite IH; [reflexivity | lia].
Qed.

Lemma append_empty_r (s : string) : s +:+ "" = s.
Proof.
  induction s as [|c s IH]; [reflexivity | now rewrite append_String, IH].
Qed.

Lemma append_assoc (a b c : string) : (a +:+ b) +:+ c = a +:+ (b +:+ c).
Proof.
  induction a as [|x a IH]; [reflexivity | now rewrite !append_String, IH].
Qed.

Lemma occurs_in_append_l (sub s front : string) :
  occurs_in sub s -> occurs_in sub (front +:+ s).
Proof.
  intros (b & a & ->). exists (front +:+ b), a. now rewrite append_assoc.
Qed.

(** ** The file system *)

Section FileSystem.

Implicit Types (m : gmap path node) (pre rest p q : path).

(** Resolution looks only at strict ancestors, so an entry as deep as the
    resolved path, or deeper, does not change it. *)
Lemma walk_insert_deep rest pre q n m :
  length pre + length rest <= length q ->
  os.walk (<[q := n]> m) pre rest = os.walk m pre rest.
Proof.
  revert pre. induction rest as [|c rest IH]; intros pre Hlen; simpl in *.
  - reflexivity.
  - rewrite lookup_insert_ne by (intros ->; lia).
    destruct (m !! pre) as [[mode|mode data]|]; try reflexivity.
    destruct (os.has_perm mode os.S_IXUSR); [|reflexivity].
    apply IH. rewrite length_app. simpl. lia.
Qed.

(** [MkdirAll] reaches no deeper than the directory it is asked for. *)
Lemma mkdir_walk_lookup_deep perm mask rest pre m q :
  length pre + length rest < length q ->
  fst (os.mkdir_walk perm mask pre rest m) !! q = m !! q.
Proof.
  revert pre m. induction rest as [|c rest IH]; intros pre m Hlen; simpl in *.
  - reflexivity.
  - assert (Hstep : length (pre ++ [c]) + length rest < length q)
      by (rewrite length_app; simpl; lia).
    assert (Hne : pre ++ [c] <> q)
      by (intros <-; rewrite length_app in Hlen; simpl in Hlen; lia).
    destruct (m !! pre) as [[mode|mode data]|]; try reflexivity.
    destruct (os.has_perm mode os.S_IXUSR); [|reflexivity].
    destruct (m !! (pre ++ [c])) as [[mode'|mode' data']|]; try reflexivity.
    + now apply IH.
    + destruct (os.has_perm mode os.S_IWUSR); [|reflexivity].
      rewrite IH by assumption. now rewrite lookup_insert_ne.
Qed.

(** Whatever [MkdirAll] changes is a directory it has just made, with the
    requested mode less the umask. *)
Lemma mkdir_walk_changes perm mask rest pre m q :
  fst (os.mkdir_walk perm mask pre rest m) !! q = m !! q \/
  (m !! q = None /\
   fst (os.mkdir_walk perm mask pre rest m) !! q
   = Some (Dir (Z.ldiff perm mask))).
Proof.
  revert pre m. induction rest as [|c rest IH]; intros pre m; simpl.
  - now left.
  - destruct (m !! pre) as [[mode|mode data]|]; try now left.
    destruct (os.has_perm mode os.S_IXUSR); [|now left].
    destruct (m !! (pre ++ [c])) as [[mode'|mode' data']|] eqn:Hp;
      try now left.
    + apply IH.
    + destruct (os.has_perm mode os.S_IWUSR); [|now left].
      destruct (IH (pre ++ [c])
                   (<[pre ++ [c] := Dir (Z.ldiff perm mask)]> m)) as [H|[H1 H2]].
      * destruct (decide (pre ++ [c] = q)) as [<-|Hne].
        -- right. split; [assumption|].
           rewrite H. apply lookup_insert_eq.
        -- left. rewrite H. now apply lookup_insert_ne.
      * destruct (decide (pre ++ [c] = q)) as [<-|Hne].
        -- rewrite lookup_insert_eq in H1. discriminate.
        -- right. rewrite lookup_insert_ne in H1 by assumption. now split.
Qed.

(** When some entry below the directory resolves, the directory and its
    ancestors are there: [MkdirAll] has nothing to do. *)
Lemma mkdir_walk_noop perm mask rest pre c m :
  os.walk m pre (rest ++ [c]) = Ok tt ->
  os.mkdir_walk perm mask pre rest m = (m, None).
Proof.
  revert pre. induction rest as [|c0 rest IH]; intros pre Hw; simpl in *.
  - reflexivity.
  - destruct (m !! pre) as [[mode|mode data]|]; try discriminate.
    destruct (os.has_perm mode os.S_IXUSR); [|discriminate].
    assert (Hdir : exists mode', m !! (pre ++ [c0]) = Some (Dir mode')).
    { destruct rest as [|c1 rest]; simpl in Hw;
        destruct (m !! (pre ++ [c0])) as [[mode'|mode' data']|];
        try discriminate; eauto. }
    destruct Hdir as [mode' ->]. now apply IH.
Qed.

End FileSystem.

(** ** Equations of the actions *)

Section Runs.

Context {ext : Externals}.

Implicit Types (w : World) (file : path) (tok : oauth2.Token).

Lemma with_fs_same w : with_fs (fs w) (free w) w = w.
Proof. now destruct w. Qed.

Lemma Open_eq name w : os.Open name w = (Done (open_answer (fs w) name), w).
Proof.
  unfold os.Open, os.OpenFile, open_answer.
  destruct (os.walk (fs w) [] name); [|reflexivity].
  destruct (fs w !! name) as [[mode|mode data]|]; simpl;
    try reflexivity.
  - change (os.wants_write os.O_RDONLY) with false. cbv iota.
    now destruct (os.has_perm mode os.S_IRUSR).
  - change (os.wants_write os.O_RDONLY) with false.
    change (os.wants_read os.O_RDONLY) with true.
    change (os.has_flag os.O_RDONLY os.O_TRUNC) with false.
    simpl. now destruct (os.has_perm mode os.S_IRUSR).
Qed.

Lemma tokenFromFile_eq file w :
  tokenFromFile file w = (Done (read_answer (fs w) file), w).
Proof.
  unfold tokenFromFile, bind, read_answer. rewrite Open_eq.
  unfold open_answer.
  destruct (os.walk (fs w) [] file); [|reflexivity].
  destruct (fs w !! file) as [[mode|mode data]|] eqn:Hfile;
    [| |reflexivity]; simpl;
    (destruct (os.has_perm mode os.S_IRUSR); [|reflexivity]);
    unfold json_Decode, bind, os.ReadAll, os.Close, ret; simpl;
    change (os.wants_read os.O_RDONLY) with true; cbv iota;
    now rewrite Hfile.
Qed.

(** A successful read means a readable file that resolves and decodes. *)
Lemma read_answer_Ok m file tok :
  read_answer m file = Ok tok <->
  exists mode data,
    os.stat m file = Ok (File mode data) /\
    os.has_perm mode os.S_IRUSR = true /\
    json_Unmarshal data = Ok tok.
Proof.
  unfold read_answer, open_answer, os.stat.
  destruct (os.walk m [] file); [|split; [discriminate|]].
  - destruct (m !! file) as [[mode|mode data]|]; simpl.
    + destruct (os.has_perm mode os.S_IXUSR), (os.has_perm mode os.S_IRUSR);
        (split; [discriminate | intros (? & ? & ? & _); discriminate]).
    + destruct (os.has_perm mode os.S_IRUSR) eqn:Hr.
      * split; [intros H; now exists mode, data|].
        intros (mode' & data' & [= -> ->] & _ & H). exact H.
      * split; [discriminate|].
        intros (mode' & data' & [= -> ->] & H & _). congruence.
    + split; [discriminate | intros (? & ? & ? & _); discriminate].
  - intros (? & ? & ? & _); discriminate.
Qed.

(** The three ways a read fails: no file, no read permission, or contents
    the decoder rejects. *)
Lemma read_answer_fails m file :
  m !! file = None \/
  (exists mode data,
      m !! file = Some (File mode data) /\
      (os.has_perm mode os.S_IRUSR = false \/
       exists e, json_Unmarshal data = Err e)) ->
  exists e, read_answer m file = Err e.
Proof.
  unfold read_answer, open_answer.
  intros [Hnone | (mode & data & Hfile & Hwhy)];
    destruct (os.walk m [] file); eauto.
  - rewrite Hnone. eauto.
  - rewrite Hfile. simpl.
    destruct Hwhy as [-> | [e He]]; [eauto|].
    destruct (os.has_perm mode os.S_IRUSR); eauto.
Qed.

Lemma read_answer_walk m file tok :
  read_answer m file = Ok tok -> os.walk m [] file = Ok tt.
Proof.
  unfold read_answer, open_answer.
  destruct (os.walk m [] file) as [[]|]; [reflexivity | discriminate].
Qed.

Lemma tokenCacheFile_eq w usr :
  current_user w = Ok usr ->
  tokenCacheFile w
  = (Done (Ok (cachePath usr)),
     with_fs (fst (os.mkdir_walk (os.octal 7 0 0) (umask w) []
                                 (tokenCacheDir usr) (fs w)))
             (free w) w).
Proof.
  intros Husr. unfold tokenCacheFile, bind, user_Current, os.MkdirAll.
  rewrite Husr.
  now destruct (os.mkdir_walk (os.octal 7 0 0) (umask w) []
                              (tokenCacheDir usr) (fs w)).
Qed.

Lemma tokenCacheFile_no_user w e :
  current_user w = Err e -> tokenCacheFile w = (Done (Err e), w).
Proof.
  intros Husr. unfold tokenCacheFile, bind, user_Current. now rewrite Husr.
Qed.

(** The world [tokenCacheFile] leaves differs from the one it found in the
    file system only. *)
Lemma tokenCacheFile_frame w :
  let w1 := snd (tokenCacheFile w) in
  stdin w1 = stdin w /\ trace w1 = trace w /\ free w1 = free w /\
  umask w1 = umask w /\ current_user w1 = current_user w.
Proof.
  destruct (current_user w) as [usr|e] eqn:Husr.
  - now rewrite (tokenCacheFile_eq w usr Husr).
  - now rewrite (tokenCacheFile_no_user w e Husr).
Qed.

(** The cache file is deeper than anything [MkdirAll] makes. *)
Lemma tokenCacheFile_keeps_file w usr :
  current_user w = Ok usr ->
  fs (snd (tokenCacheFile w)) !! cachePath usr = fs w !! cachePath usr.
Proof.
  intros Husr. rewrite (tokenCacheFile_eq w usr Husr). simpl.
  apply mkdir_walk_lookup_deep.
  unfold cachePath, tokenCacheDir, filepath_Join.
  rewrite !length_app. simpl. lia.
Qed.

(** Every entry [tokenCacheFile] changes is a directory it created, with
    mode 0700 less the umask. *)
Lemma tokenCacheFile_creates w q :
  fs (snd (tokenCacheFile w)) !! q = fs w !! q \/
  (fs w !! q = None /\
   fs (snd (tokenCacheFile w)) !! q
   = Some (Dir (Z.ldiff (os.octal 7 0 0) (umask w)))).
Proof.
  destruct (current_user w) as [usr|e] eqn:Husr.
  - rewrite (tokenCacheFile_eq w usr Husr). simpl.
    apply mkdir_walk_changes.
  - rewrite (tokenCacheFile_no_user w e Husr). now left.
Qed.

(** With the cache file in place the directory is there too, and
    [tokenCacheFile] changes nothing. *)
Lemma tokenCacheFile_idle w usr tok :
  current_user w = Ok usr ->
  read_answer (fs w) (cachePath usr) = Ok tok ->
  tokenCacheFile w = (Done (Ok (cachePath usr)), w).
Proof.
  intros Husr Hread. rewrite (tokenCacheFile_eq w usr Husr).
  apply read_answer_walk in Hread.
  unfold cachePath, filepath_Join in Hread.
  rewrite (mkdir_walk_noop _ _ _ _ _ _ Hread). simpl.
  now rewrite with_fs_same.
Qed.

(** [getTokenFromWeb], step by step. *)
Lemma getTokenFromWeb_eq config w :
  getTokenFromWeb config w =
  let url := oauth2.AuthCodeURL config "state-token"
                                [oauth2.AccessTypeOffline] in
  let r := fst (scan_token (stdin w)) in
  let w1 := emit (Scanned r)
              (with_stdin (snd (scan_token (stdin w)))
                 (emit (Printed (authorize_prompt url)) w)) in
  match r with
  | Err e => (Fatal ("Unable to read authorization code " +:+ e), w1)
  | Ok code =>
      let r' := token_endpoint oauth2_NoContext config code in
      match r' with
      | Err e => (Fatal ("Unable to retrieve token from web " +:+ e),
                  emit (Exchanged code r') w1)
      | Ok tok => (Done tok, emit (Exchanged code r') w1)
      end
  end.
Proof.
  unfold getTokenFromWeb, bind, fmt_Printf, fmt_Scan, Config_Exchange,
    log_Fatalf, ret.
  simpl. destruct (scan_token (stdin w)) as [[code|e] rest]; simpl.
  - now destruct (token_endpoint oauth2_NoContext config code).
  - reflexivity.
Qed.

(** [OpenFile] with the flags of [saveToken]: it fails and changes
    nothing, or leaves an empty file, old with its mode kept or new with
    [perm] less the umask. *)
Lemma OpenFile_save file perm w o w' :
  os.OpenFile file (Z.lor os.O_RDWR (Z.lor os.O_CREATE os.O_TRUNC)) perm w
  = (o, w') ->
  (exists e, o = Done (Err e) /\ w' = w) \/
  (exists mode f,
      o = Done (Ok f) /\ os.handle_path f = file /\
      os.wants_write (os.handle_flag f) = true /\
      os.walk (fs w) [] file = Ok tt /\
      w' = with_fs (<[file := File mode ""]> (fs w))
                   (free w + file_size (fs w) file) w /\
      ((exists old, fs w !! file = Some (File mode old) /\
                    os.has_perm mode os.S_IRUSR = true /\
                    os.has_perm mode os.S_IWUSR = true) \/
       (fs w !! file = None /\ mode = Z.ldiff perm (umask w)))).
Proof.
  unfold os.OpenFile, file_size.
  change (os.wants_read (Z.lor os.O_RDWR (Z.lor os.O_CREATE os.O_TRUNC)))
    with true.
  change (os.wants_write (Z.lor os.O_RDWR (Z.lor os.O_CREATE os.O_TRUNC)))
    with true.
  change (os.has_flag (Z.lor os.O_RDWR (Z.lor os.O_CREATE os.O_TRUNC))
                      os.O_TRUNC) with true.
  change (os.has_flag (Z.lor os.O_RDWR (Z.lor os.O_CREATE os.O_TRUNC))
                      os.O_CREATE) with true.
  cbv iota. simpl negb. simpl orb.
  destruct (os.walk (fs w) [] file) as [[]|e]; [|intros [= <- <-]; eauto].
  destruct (fs w !! file) as [[mode|mode data]|] eqn:Hfile.
  - intros [= <- <-]; eauto.
  - destruct (os.has_perm mode os.S_IRUSR) eqn:Hr,
             (os.has_perm mode os.S_IWUSR) eqn:Hw; simpl;
      intros [= <- <-]; eauto.
    right. eexists mode, _. repeat split; eauto.
  - destruct file as [|c file']; [intros [= <- <-]; eauto|].
    destruct (fs w !! os.parent (c :: file')) as [[dmode|dmode ddata]|];
      try (intros [= <- <-]; now eauto).
    destruct (os.has_perm dmode os.S_IWUSR); intros [= <- <-]; eauto.
    right. eexists _, _. repeat split; eauto.
    now rewrite Nat.add_0_r.
Qed.

Lemma length_take_bytes n s :
  String.length (take_bytes n s) = Nat.min n (String.length s).
Proof.
  revert s. induction n as [|n IH]; intros [|c s]; simpl; try reflexivity.
  now rewrite IH.
Qed.

Lemma take_bytes_empty n : take_bytes n "" = "".
Proof. now destruct n. Qed.

(** [Encode] into a freshly emptied file: as much of the encoding as the
    volume takes ends up in it. *)
Lemma json_Encode_fresh f tok w mode :
  os.wants_write (os.handle_flag f) = true ->
  fs w !! os.handle_path f = Some (File mode "") ->
  let written := take_bytes (free w) (encoding tok) in
  exists err,
    json_Encode f tok w
    = (Done err,
       with_fs (<[os.handle_path f := File mode written]> (fs w))
               (free w - String.length written) w) /\
    (err = None <-> exists s, json_Marshal tok = Ok s /\
                              String.length (s +:+ nl) <= free w).
Proof.
  intros Hflag Hfile. unfold json_Encode, encoding.
  destruct (json_Marshal tok) as [s|e].
  - unfold bind, os.Write, ret. rewrite Hflag, Hfile.
    destruct (String.length (s +:+ nl) <=? free w) eqn:Hfit.
    + apply Nat.leb_le in Hfit. exists None. split.
      * cbn zeta. now rewrite take_bytes_all by assumption.
      * split; [eauto | reflexivity].
    + apply Nat.leb_gt in Hfit. eexists. split.
      * cbn zeta. rewrite length_take_bytes.
        replace (free w - Nat.min (free w) (String.length (s +:+ nl)))
          with 0 by lia.
        reflexivity.
      * split; [discriminate|]. intros (s' & [= <-] & Hle). lia.
  - exists (Some e). split.
    + cbn zeta. rewrite take_bytes_empty. simpl. rewrite Nat.sub_0_r.
      rewrite insert_id by assumption. now rewrite with_fs_same.
    + split; [discriminate | intros (s & [=] & _)].
Qed.

(** [saveToken] ends the process exactly when the file cannot be opened;
    otherwise it returns, with as much of the encoding in the file as the
    volume took. *)
Lemma saveToken_cases file tok w :
  let w0 := emit (Printed ("Saving credential file to: "
                           +:+ path_string file +:+ nl)) w in
  (exists e,
      fst (os.OpenFile file (Z.lor os.O_RDWR (Z.lor os.O_CREATE os.O_TRUNC))
                       (os.octal 6 0 0) w0) = Done (Err e) /\
      saveToken file tok w
      = (Fatal ("Unable to cache oauth token: " +:+ e), w0)) \/
  (exists mode,
      os.walk (fs w) [] file = Ok tt /\
      ((exists old, fs w !! file = Some (File mode old) /\
                    os.has_perm mode os.S_IRUSR = true /\
                    os.has_perm mode os.S_IWUSR = true) \/
       (fs w !! file = None /\
        mode = Z.ldiff (os.octal 6 0 0) (umask w))) /\
      let room := free w + file_size (fs w) file in
      let written := take_bytes room (encoding tok) in
      saveToken file tok w
      = (Done tt,
         with_fs (<[file := File mode written]> (fs w))
                 (room - String.length written) w0)).
Proof.
  intros w0. unfold saveToken, bind, fmt_Printf. fold w0.
  destruct (os.OpenFile file _ (os.octal 6 0 0) w0) as [o w1] eqn:Hopen.
  destruct (OpenFile_save _ _ _ _ _ Hopen)
    as [(e & -> & ->) | (mode & f & -> & Hpath & Hflag & Hwalk & -> & Hold)].
  - left. exists e. split; reflexivity.
  - right. exists mode. split; [exact Hwalk|]. split; [exact Hold|].
    cbn zeta.
    destruct (json_Encode_fresh f tok
                (with_fs (<[file := File mode ""]> (fs w0))
                         (free w0 + file_size (fs w0) file) w0) mode Hflag)
      as (err & Henc & _).
    { rewrite Hpath. apply lookup_insert_eq. }
    rewrite Henc. unfold os.Close, ret. rewrite Hpath. simpl.
    now rewrite insert_insert_eq.
Qed.

(** Cache hit: the world is left as it was found. *)
Lemma getClient_hit ctx config w usr tok :
  current_user w = Ok usr ->
  read_answer (fs w) (cachePath usr) = Ok tok ->
  getClient ctx config w = (Done (Config_Client ctx config tok), w).
Proof.
  intros Husr Hread. unfold getClient, bind.
  rewrite (tokenCacheFile_idle w usr tok Husr Hread).
  now rewrite tokenFromFile_eq, Hread.
Qed.

(** Cache miss: the interactive flow, then [saveToken]. *)
Lemma getClient_miss ctx config w usr e :
  current_user w = Ok usr ->
  read_answer (fs (snd (tokenCacheFile w))) (cachePath usr) = Err e ->
  getClient ctx config w =
  match getTokenFromWeb config (snd (tokenCacheFile w)) with
  | (Done tok, w2) =>
      match saveToken (cachePath usr) tok w2 with
      | (Done _, w3) => (Done (Config_Client ctx config tok), w3)
      | (Fatal msg, w3) => (Fatal msg, w3)
      end
  | (Fatal msg, w2) => (Fatal msg, w2)
  end.
Proof.
  intros Husr Hread. unfold getClient, bind.
  rewrite (tokenCacheFile_eq w usr Husr) in *. simpl snd in Hread.
  cbn iota beta. rewrite tokenFromFile_eq. simpl snd. rewrite Hread.
  destruct (getTokenFromWeb config _) as [[tok|msg] w2]; [|reflexivity].
  now destruct (saveToken (cachePath usr) tok w2) as [[[]|msg] w3].
Qed.

Lemma getClient_no_user ctx config w e :
  current_user w = Err e ->
  getClient ctx config w
  = (Fatal ("Unable to get path to cached credential file. " +:+ e), w).
Proof.
  intros Husr. unfold getClient, bind.
  now rewrite (tokenCacheFile_no_user w e Husr).
Qed.

End Runs.

(** * The specification *)

Section CacheHit.

Context {ext : Externals}.

(** C1: cache hit. Whenever the current user's cache file exists and
    [tokenFromFile] deserializes it into a credential [tok], [getClient]
    returns the client built from exactly that [tok], whatever its
    [Expiry]: the run adds no event to the trace (no request to the
    authorization server, no prompt, no read of the console) and leaves
    the console input untouched. *)
Theorem getClient_cache_hit ctx config w usr tok :
  current_user w = Ok usr ->
  fst (tokenFromFile (cachePath usr) w) = Done (Ok tok) ->
  fst (getClient ctx config w) = Done (Config_Client ctx config tok) /\
  client_token (Config_Client ctx config tok) = tok /\
  events_of w (snd (getClient ctx config w)) [] /\
  stdin (snd (getClient ctx config w)) = stdin w.
Proof.
  intros Husr Hread. rewrite tokenFromFile_eq in Hread.
  injection Hread as Hread.
  rewrite (getClient_hit ctx config w usr tok Husr Hread).
  unfold events_of. simpl. now rewrite app_nil_r.
Qed.


(** C10: frame of the cache hit. When the cache file exists, is readable
    and deserializes, [getClient] writes nothing: every path of the file
    system, the cache file and its directory included, holds what it held
    before, the free space is the same, and nothing is printed, so
    [saveToken], whose first step is a print, was not run. *)
Theorem getClient_cache_hit_frame ctx config w usr mode data tok :
  current_user w = Ok usr ->
  os.stat (fs w) (cachePath usr) = Ok (File mode data) ->
  os.has_perm mode os.S_IRUSR = true ->
  json_Unmarshal data = Ok tok ->
  let w' := snd (getClient ctx config w) in
  (forall p, fs w' !! p = fs w !! p) /\
  fs w' !! cachePath usr = Some (File mode data) /\
  free w' = free w /\
  trace w' = trace w.
Proof.
  intros Husr Hstat Hperm Hjson w'.
  assert (Hread : read_answer (fs w) (cachePath usr) = Ok tok)
    by (apply read_answer_Ok; eauto).
  subst w'. rewrite (getClient_hit ctx config w usr tok Husr Hread). simpl.
  repeat split.
  unfold os.stat in Hstat.
  destruct (os.walk (fs w) [] (cachePath usr)); [|discriminate].
  destruct (fs w !! cachePath usr); [congruence | discriminate].
Qed.

End CacheHit.

Section CacheMiss.

Context {ext : Externals}.

Lemma occurs_in_concat (sep x : string) (l : list string) :
  In x l -> occurs_in x (String.concat sep l).
Proof.
  induction l as [|y l IH]; intros Hin; [destruct Hin|].
  destruct Hin as [-> | Hin].
  - destruct l as [|z l]; simpl.
    + exists "", "". now rewrite append_empty_r.
    + exists "", (sep +:+ String.concat sep (z :: l)). reflexivity.
  - destruct l as [|z l]; [destruct Hin|].
    destruct (IH Hin) as (b & a & Heq).
    exists (y +:+ sep +:+ b), a.
    change (String.concat sep (y :: z :: l))
      with (y +:+ sep +:+ String.concat sep (z :: l)).
    rewrite Heq. now rewrite !append_assoc.
Qed.

(** The authorization URL carries the client id, the scopes, the fixed
    state token and the offline access type as query parameters. *)
Lemma AuthCodeURL_parameters (config : oauth2.Config) :
  let authURL := oauth2.AuthCodeURL config "state-token"
                                    [oauth2.AccessTypeOffline] in
  occurs_in ("client_id=" +:+ url.QueryEscape (oauth2.ClientID config))
            authURL /\
  (oauth2.Scopes config <> [] ->
   occurs_in ("scope=" +:+ url.QueryEscape
                             (strings_Join (oauth2.Scopes config) " "))
             authURL) /\
  occurs_in "state=state-token" authURL /\
  occurs_in "access_type=offline" authURL.
Proof.
  destruct config as [id secret endpoint redirect scopes].
  unfold oauth2.AuthCodeURL, oauth2.set_nonempty.
  cbn [oauth2.ClientID oauth2.Scopes oauth2.RedirectURL oauth2.Endpoint_].
  repeat split; try intros Hscopes;
    do 2 apply occurs_in_append_l; apply occurs_in_concat;
    destruct (String.eqb redirect ""); destruct scopes as [|sc scopes];
    try congruence;
    unfold oauth2.AccessTypeOffline, oauth2.setValue; simpl;
    repeat (first [left; reflexivity | right]).
Qed.

Lemma trace_emit e w : trace (emit e w) = trace w ++ [e].
Proof. reflexivity. Qed.

(** C7: cache miss. Whenever the read of the cache file fails, for
    whatever reason, [getClient] goes on: the next two events of the run
    are the print of the authorization URL, which carries the configured
    client id and scopes, the fixed state token and the offline access
    type, and one read of the console; whatever follows, the exchange
    included, comes after that read and reads the console no more.  If the
    run ends fatally it is for the console, the exchange or the opening of
    the cache file for writing, never for the failed read. *)
Theorem getClient_cache_miss_prompts ctx config w usr e :
  current_user w = Ok usr ->
  fst (tokenFromFile (cachePath usr) (snd (tokenCacheFile w)))
  = Done (Err e) ->
  let authURL := oauth2.AuthCodeURL config "state-token"
                                    [oauth2.AccessTypeOffline] in
  (occurs_in ("client_id=" +:+ url.QueryEscape (oauth2.ClientID config))
             authURL /\
   (oauth2.Scopes config <> [] ->
    occurs_in ("scope=" +:+ url.QueryEscape
                              (strings_Join (oauth2.Scopes config) " "))
              authURL) /\
   occurs_in "state=state-token" authURL /\
   occurs_in "access_type=offline" authURL) /\
  (exists later,
      events_of w (snd (getClient ctx config w))
                (Printed (authorize_prompt authURL)
                 :: Scanned (fst (scan_token (stdin w))) :: later) /\
      forallb (fun ev => negb (is_console_read ev)) later = true) /\
  (forall msg,
      fst (getClient ctx config w) = Fatal msg ->
      (exists e', fst (scan_token (stdin w)) = Err e' /\
                  msg = "Unable to read authorization code " +:+ e') \/
      (exists e', msg = "Unable to retrieve token from web " +:+ e') \/
      (exists e', msg = "Unable to cache oauth token: " +:+ e')).
Proof.
  intros Husr Hread authURL. split; [apply AuthCodeURL_parameters|].
  rewrite tokenFromFile_eq in Hread. injection Hread as Hread.
  rewrite (getClient_miss ctx config w usr e Husr Hread).
  rewrite getTokenFromWeb_eq. cbn zeta. fold authURL.
  destruct (tokenCacheFile_frame w) as (Hin & Htr & _).
  cbn zeta in Hin, Htr. rewrite Hin. unfold events_of.
  destruct (fst (scan_token (stdin w))) as [code|e1] eqn:Hscan.
  - destruct (token_endpoint oauth2_NoContext config code) as [tok|e2].
    + match goal with
      | |- context [saveToken ?f ?t ?w0] =>
          destruct (saveToken_cases f t w0)
            as [(e3 & _ & ->) | (mode & _ & _ & ->)]
      end.
      * split.
        -- eexists. split.
           ++ cbn [snd]. rewrite !trace_emit. simpl trace. rewrite Htr.
              rewrite <- !app_assoc. simpl. reflexivity.
           ++ reflexivity.
        -- intros msg [= <-]. right. right. eauto.
      * split; [|intros msg [=]].
        eexists. split.
        -- cbn [snd]. simpl trace. rewrite Htr.
           rewrite <- !app_assoc. simpl. reflexivity.
        -- reflexivity.
    + split.
      * eexists. split.
        -- cbn [snd]. simpl trace. rewrite Htr.
           rewrite <- !app_assoc. simpl. reflexivity.
        -- reflexivity.
      * intros msg [= <-]. right. left. eauto.
  - split.
    + exists []. split; [|reflexivity].
      cbn [snd]. simpl trace. rewrite Htr.
      rewrite <- !app_assoc. reflexivity.
    + intros msg [= <-]. left. eauto.
Qed.

(** C4: failed exchange. When the cache read has failed, the console
    delivered a code and the token endpoint rejects it, [getClient] ends
    the process at once with a message naming the failure: the run
    consists of one prompt, one console read and one request, nothing is
    written to the file system after the directory step, and the cache
    path holds what it held before the call. *)
Theorem getClient_exchange_failure ctx config w usr e0 code rest e :
  current_user w = Ok usr ->
  fst (tokenFromFile (cachePath usr) (snd (tokenCacheFile w)))
  = Done (Err e0) ->
  scan_token (stdin w) = (Ok code, rest) ->
  token_endpoint oauth2_NoContext config code = Err e ->
  let authURL := oauth2.AuthCodeURL config "state-token"
                                    [oauth2.AccessTypeOffline] in
  let w' := snd (getClient ctx config w) in
  fst (getClient ctx config w)
  = Fatal ("Unable to retrieve token from web " +:+ e) /\
  exit_status (fst (getClient ctx config w)) = 1%Z /\
  events_of w w' [Printed (authorize_prompt authURL);
                  Scanned (Ok code);
                  Exchanged code (Err e)] /\
  fs w' = fs (snd (tokenCacheFile w)) /\
  fs w' !! cachePath usr = fs w !! cachePath usr.
Proof.
  intros Husr Hread Hscan Hex authURL w'. subst w'.
  rewrite tokenFromFile_eq in Hread. injection Hread as Hread.
  rewrite (getClient_miss ctx config w usr e0 Husr Hread).
  rewrite getTokenFromWeb_eq. cbn zeta. fold authURL.
  destruct (tokenCacheFile_frame w) as (Hin & Htr & _).
  cbn zeta in Hin, Htr. rewrite Hin, Hscan. cbn [fst snd].
  rewrite Hex. cbn [fst snd]. unfold events_of. simpl.
  rewrite Htr, <- !app_assoc. simpl.
  repeat split. now apply tokenCacheFile_keeps_file.
Qed.

End CacheMiss.

Section Persistence.

Context {ext : Externals}.

(** Modes made from 0600 or 0700 give nothing to group and others,
    whatever the umask. *)
Lemma ldiff_owner_only (perm mask : Z) :
  Z.land perm (os.octal 0 7 7) = 0%Z ->
  Z.land (Z.ldiff perm mask) (os.octal 0 7 7) = 0%Z.
Proof.
  intros Hperm. apply Z.bits_inj'. intros n Hn.
  rewrite Z.land_spec, Z.ldiff_spec, Z.bits_0.
  assert (Hbit : Z.testbit (Z.land perm (os.octal 0 7 7)) n = false)
    by (rewrite Hperm; apply Z.bits_0).
  rewrite Z.land_spec in Hbit.
  destruct (Z.testbit perm n), (Z.testbit (os.octal 0 7 7) n),
    (Z.testbit mask n); simpl in *; congruence.
Qed.

(** After a [saveToken] that returned and had room for the encoding, the
    file reads back as the encoding decodes. *)
Lemma saveToken_then_read file tok w s :
  json_Marshal tok = Ok s ->
  fst (saveToken file tok w) = Done tt ->
  String.length (s +:+ nl) <= free w + file_size (fs w) file ->
  os.has_perm (Z.ldiff (os.octal 6 0 0) (umask w)) os.S_IRUSR = true ->
  read_answer (fs (snd (saveToken file tok w))) file
  = json_Unmarshal (s +:+ nl).
Proof.
  intros Hmarshal Hdone Hroom Hmask.
  destruct (saveToken_cases file tok w)
    as [(e & _ & Hsave) | (mode & Hwalk & Hold & Hsave)];
    cbn zeta in Hsave; rewrite Hsave in *; [discriminate|].
  cbn [snd]. simpl fs.
  unfold encoding. rewrite Hmarshal. rewrite take_bytes_all by assumption.
  unfold read_answer, open_answer.
  rewrite walk_insert_deep by (simpl; lia). rewrite Hwalk.
  rewrite lookup_insert_eq. simpl node_mode.
  assert (Hr : os.has_perm mode os.S_IRUSR = true).
  { destruct Hold as [(old & _ & Hr & _) | (_ & ->)]; assumption. }
  now rewrite Hr.
Qed.


(** C5, as the code has it: overwrite. For every new acquisition that
    returns after a failed cache read, nothing of the old contents of the
    cache file survives, since the file is emptied first: it holds the
    encoding of the new credential, the whole of it whenever the volume has
    room, and otherwise only a beginning of it.  A cache file that was
    there keeps its permission bits; one that was missing is created with
    0600 less the umask.  Every other entry is as before, or is a directory
    the run created, with 0700 less the umask.  Modes set at creation give
    nothing to group and others. *)
Theorem getClient_overwrites_cache ctx config w usr e c w' :
  current_user w = Ok usr ->
  fst (tokenFromFile (cachePath usr) (snd (tokenCacheFile w)))
  = Done (Err e) ->
  getClient ctx config w = (Done c, w') ->
  let room := free w + file_size (fs w) (cachePath usr) in
  let written := take_bytes room (encoding (client_token c)) in
  (exists mode,
      fs w' !! cachePath usr = Some (File mode written) /\
      (forall mode0 old,
          fs w !! cachePath usr = Some (File mode0 old) -> mode = mode0) /\
      (fs w !! cachePath usr = None ->
       mode = Z.ldiff (os.octal 6 0 0) (umask w) /\
       Z.land mode (os.octal 0 7 7) = 0%Z)) /\
  (encoding (client_token c)
   = written +:+ drop_bytes room (encoding (client_token c)) /\
   (String.length (encoding (client_token c)) <= room ->
    written = encoding (client_token c))) /\
  (forall q,
      q <> cachePath usr ->
      fs w' !! q = fs w !! q \/
      (fs w !! q = None /\
       fs w' !! q = Some (Dir (Z.ldiff (os.octal 7 0 0) (umask w))) /\
       Z.land (Z.ldiff (os.octal 7 0 0) (umask w)) (os.octal 0 7 7) = 0%Z)).
Proof.
  intros Husr Hread Hrun room written.
  rewrite tokenFromFile_eq in Hread. injection Hread as Hread.
  rewrite (getClient_miss ctx config w usr e Husr Hread) in Hrun.
  rewrite getTokenFromWeb_eq in Hrun. cbn zeta in Hrun.
  destruct (tokenCacheFile_frame w) as (Hin & Htr & Hfree & Hmask & _).
  cbn zeta in Hin, Htr, Hfree, Hmask.
  pose proof (tokenCacheFile_keeps_file w usr Husr) as Hkeep.
  destruct (fst (scan_token (stdin (snd (tokenCacheFile w)))))
    as [code|e1]; [|discriminate].
  destruct (token_endpoint oauth2_NoContext config code) as [tok|e2];
    [|discriminate].
  match type of Hrun with
  | context [saveToken ?f ?t ?w0] =>
      destruct (saveToken_cases f t w0)
        as [(e3 & _ & Hsave) | (mode & _ & Hold & Hsave)];
        cbn zeta in Hsave; rewrite Hsave in Hrun; [discriminate|]
  end.
  injection Hrun as <- <-. subst room written.
  simpl client_token. simpl fs in *. simpl free. simpl umask in *.
  unfold file_size. rewrite Hkeep in *. rewrite Hfree, Hmask in *.
  split; [|split].
  - exists mode. split; [now rewrite lookup_insert_eq|]. split.
    + intros mode0 old Hfile.
      destruct Hold as [(old' & Hold & _) | (Hnone & _)]; congruence.
    + intros Hnone.
      destruct Hold as [(old' & Hold & _) | (_ & ->)]; [congruence|].
      split; [reflexivity|]. now apply ldiff_owner_only.
  - split; [symmetry; apply take_drop_bytes|].
    intros Hfit. now apply take_bytes_all.
  - intros q Hq. rewrite lookup_insert_ne by congruence.
    destruct (tokenCacheFile_creates w q) as [Hsame | [Hnone Hdir]].
    + now left.
    + right. repeat split; try assumption. now apply ldiff_owner_only.
Qed.

End Persistence.

Section RemoteCall.

Context {ext : Externals}.

Lemma ioutil_ReadFile_pure name w :
  snd (ioutil_ReadFile name w) = w /\
  exists r, fst (ioutil_ReadFile name w) = Done r.
Proof.
  unfold ioutil_ReadFile.
  destruct (os.stat (fs w) (filepath_Join (cwd w) name))
    as [[mode|mode data]|e]; simpl; eauto;
    destruct (os.has_perm mode os.S_IRUSR); simpl; eauto.
Qed.

(** C8: errors of the remote call. Once the configuration is read, the
    client obtained and the service built, a call that comes back with a
    reply carrying a function-level error makes [main] print that error
    and return, so the process exits with status 0; [main] ends fatally
    at this step exactly when the call itself failed, with a diagnostic
    naming that failure. *)
Theorem main_script_error_not_fatal w b config client w1 srv :
  fst (ioutil_ReadFile "client_secret.json" w) = Done (Ok b) ->
  google_ConfigFromJSON b ["https://www.googleapis.com/auth/drive"]
  = Ok config ->
  getClient context_Background config w = (Done client, w1) ->
  script_New client = Ok srv ->
  let scriptId := "Mn_YoQoNj_iufS59FmWsY-JgYYRqhh78z" in
  let req := {| script.Function_ := "getFoldersUnderRoot" |} in
  let called := emit (RanScript scriptId "getFoldersUnderRoot") w1 in
  (forall resp st,
      scripts_run srv scriptId req = Ok resp ->
      script.Error resp = Some st ->
      main w = (Done tt, emit (Printed (format_Status st)) called) /\
      exit_status (fst (main w)) = 0%Z) /\
  (forall msg,
      fst (main w) = Fatal msg <->
      exists e, scripts_run srv scriptId req = Err e /\
                msg = "Unable to execute Apps Script function. " +:+ e).
Proof.
  intros Hfile Hconfig Hclient Hsrv scriptId req called.
  destruct (ioutil_ReadFile_pure "client_secret.json" w) as (Hw & _).
  assert (Hmain : main w =
            match scripts_run srv scriptId req with
            | Err e =>
                (Fatal ("Unable to execute Apps Script function. " +:+ e),
                 called)
            | Ok resp =>
                match script.Error resp with
                | Some st => (Done tt, emit (Printed (format_Status st)) called)
                | None =>
                    (Done tt,
                     emit (Printed (RawMessage_MarshalJSON
                                      (script.Response resp))) called)
                end
            end).
  { unfold main, bind.
    destruct (ioutil_ReadFile "client_secret.json" w) as [o w0].
    simpl in Hfile, Hw. subst o w0. rewrite Hconfig. unfold bind.
    rewrite Hclient, Hsrv. unfold Scripts_Run_Do. fold scriptId req.
    destruct (scripts_run srv scriptId req) as [resp|e]; [|reflexivity].
    now destruct (script.Error resp). }
  rewrite Hmain. split.
  - intros resp st -> ->. split; reflexivity.
  - intros msg. destruct (scripts_run srv scriptId req) as [resp|e].
    + split; [|intros (e & [=] & _)].
      destruct (script.Error resp); discriminate.
    + split.
      * intros [= <-]. eauto.
      * intros (e' & [= <-] & ->). reflexivity.
Qed.

End RemoteCall.

Section Guarantee.

Context {ext : Externals}.

(** The read that [getClient] itself performs decides the branch. *)
Lemma getClient_found ctx config w usr tok :
  current_user w = Ok usr ->
  read_answer (fs (snd (tokenCacheFile w))) (cachePath usr) = Ok tok ->
  getClient ctx config w
  = (Done (Config_Client ctx config tok), snd (tokenCacheFile w)).
Proof.
  intros Husr Hread. unfold getClient, bind.
  rewrite (tokenCacheFile_eq w usr Husr) in *. simpl snd in *.
  cbn iota beta. now rewrite tokenFromFile_eq, Hread.
Qed.

(** The cache guarantee, where the code keeps it: after [getClient]
    returns, the cache file reads back as the returned credential,
    provided the codec takes that credential to a text and back, the
    volume had room for the text and the umask leaves the owner's read
    bit. *)
Lemma getClient_cache_guarantee ctx config w usr c w' s :
  current_user w = Ok usr ->
  getClient ctx config w = (Done c, w') ->
  json_Marshal (client_token c) = Ok s ->
  json_Unmarshal (s +:+ nl) = Ok (client_token c) ->
  String.length (s +:+ nl) <= free w + file_size (fs w) (cachePath usr) ->
  os.has_perm (Z.ldiff (os.octal 6 0 0) (umask w)) os.S_IRUSR = true ->
  read_answer (fs w') (cachePath usr) = Ok (client_token c).
Proof.
  intros Husr Hrun Hmarshal Hback Hroom Hmask.
  destruct (tokenCacheFile_frame w) as (Hin & Htr & Hfree & Humask & _).
  cbn zeta in Hin, Htr, Hfree, Humask.
  pose proof (tokenCacheFile_keeps_file w usr Husr) as Hkeep.
  destruct (read_answer (fs (snd (tokenCacheFile w))) (cachePath usr))
    as [tok|e] eqn:Hread.
  - rewrite (getClient_found ctx config w usr tok Husr Hread) in Hrun.
    injection Hrun as <- <-. exact Hread.
  - rewrite (getClient_miss ctx config w usr e Husr Hread) in Hrun.
    rewrite getTokenFromWeb_eq in Hrun. cbn zeta in Hrun.
    destruct (fst (scan_token (stdin (snd (tokenCacheFile w)))))
      as [code|e1]; [|discriminate].
    destruct (token_endpoint oauth2_NoContext config code) as [tok|e2];
      [|discriminate].
    match type of Hrun with
    | context [saveToken ?f ?t ?w0] =>
        pose proof (saveToken_then_read f t w0 s) as Hsaved;
        destruct (saveToken f t w0) as [[[]|msg] w3] eqn:Hsave;
        [|discriminate]
    end.
    injection Hrun as <- <-. simpl client_token in *.
    cbn [fst snd] in Hsaved.
    rewrite Hsaved; try assumption; try reflexivity.
    + simpl. unfold file_size in *. now rewrite Hkeep, Hfree.
    + simpl. now rewrite Humask.
Qed.

End Guarantee.

(** ** Where the code departs from the specification *)

(** C2: the guarantee is not kept on a full volume. On the first run of
    [demo.disk_full] the exchange succeeds and [getClient] returns the
    client carrying the new credential, yet the cache file it leaves is
    empty: reading it back fails, so the file does not hold the credential
    that was returned. *)
Theorem getClient_returns_unsaved_credential :
  fst (demo.acquire demo.disk_full)
  = Done (Config_Client context_Background demo.config demo.token) /\
  fs (snd (demo.acquire demo.disk_full)) !! cachePath demo.gopher
  = Some (File (os.octal 6 0 0) "") /\
  fst (@tokenFromFile demo.externals (cachePath demo.gopher)
         (snd (demo.acquire demo.disk_full)))
  = Done (Err "EOF").
Proof. repeat split; vm_compute; reflexivity. Qed.

(** C3: a failed write is not fatal. With the cache directory in place on
    the full volume of [demo.disk_full], [saveToken] opens the file, the
    [Encode] it then performs reports the write error, and [saveToken]
    still returns normally, leaving the credential unsaved in an empty
    file. *)
Theorem saveToken_ignores_write_error :
  let file := cachePath demo.gopher in
  let flag := Z.lor os.O_RDWR (Z.lor os.O_CREATE os.O_TRUNC) in
  let w := snd (tokenCacheFile demo.disk_full) in
  let w0 := emit (Printed ("Saving credential file to: "
                           +:+ path_string file +:+ nl)) w in
  let f := {| os.handle_path := file; os.handle_flag := flag |} in
  let w1 := snd (os.OpenFile file flag (os.octal 6 0 0) w0) in
  fst (os.OpenFile file flag (os.octal 6 0 0) w0) = Done (Ok f) /\
  fst (@json_Encode demo.externals f demo.token w1)
  = Done (Some (os.PathError "write" file os.ENOSPC)) /\
  fst (@saveToken demo.externals file demo.token w) = Done tt /\
  fs (snd (@saveToken demo.externals file demo.token w)) !! file
  = Some (File (os.octal 6 0 0) "").
Proof. repeat split; vm_compute; reflexivity. Qed.

(** C5, as stated, fails: an existing cache file is not given 0600. On
    [demo.stale], where the cache file holds no credential and has mode
    0644 in a directory of mode 0755, the new acquisition succeeds and
    replaces the contents, but the file is not of mode 0600 afterwards and
    its directory not of mode 0700: both keep the modes they had. *)
Lemma stale_cache_keeps_its_modes :
  let w' := snd (demo.acquire demo.stale) in
  fst (demo.acquire demo.stale)
  = Done (Config_Client context_Background demo.config demo.token) /\
  fs w' !! cachePath demo.gopher
  = Some (File (os.octal 6 4 4) (demo.render demo.token +:+ nl)) /\
  fs w' !! tokenCacheDir demo.gopher = Some (Dir (os.octal 7 5 5)) /\
  ~ (exists data,
        fs w' !! cachePath demo.gopher = Some (File (os.octal 6 0 0) data)) /\
  fs w' !! tokenCacheDir demo.gopher <> Some (Dir (os.octal 7 0 0)).
Proof.
  intros w'.
  assert (Hfile : fs w' !! cachePath demo.gopher
                  = Some (File (os.octal 6 4 4) (demo.render demo.token +:+ nl)))
    by (vm_compute; reflexivity).
  assert (Hdir : fs w' !! tokenCacheDir demo.gopher
                 = Some (Dir (os.octal 7 5 5)))
    by (vm_compute; reflexivity).
  split; [vm_compute; reflexivity|]. split; [exact Hfile|].
  split; [exact Hdir|]. split.
  - intros [data H]. rewrite Hfile in H. discriminate H.
  - rewrite Hdir. discriminate.
Qed.

(** ** The theorems at work on the concrete machines *)

Lemma getClient_cache_hit_witness :
  current_user demo.cached = Ok demo.gopher /\
  fst (demo.acquire demo.cached)
  = Done (Config_Client context_Background demo.config demo.token) /\
  events_of demo.cached (snd (demo.acquire demo.cached)) [] /\
  stdin (snd (demo.acquire demo.cached)) = stdin demo.cached.
Proof.
  split; [reflexivity|].
  destruct (@getClient_cache_hit demo.externals context_Background
              demo.config demo.cached demo.gopher demo.token)
    as (H1 & _ & H2 & H3);
    [reflexivity | vm_compute; reflexivity |].
  exact (conj H1 (conj H2 H3)).
Defined.


Lemma getClient_cache_hit_frame_witness :
  (forall p, fs (snd (demo.acquire demo.cached)) !! p = fs demo.cached !! p) /\
  free (snd (demo.acquire demo.cached)) = free demo.cached /\
  trace (snd (demo.acquire demo.cached)) = trace demo.cached.
Proof.
  destruct (@getClient_cache_hit_frame demo.externals context_Background
              demo.config demo.cached demo.gopher (os.octal 6 0 0)
              (demo.render demo.token +:+ nl) demo.token)
    as (H1 & _ & H2 & H3);
    [reflexivity | vm_compute; reflexivity | vm_compute; reflexivity
    | vm_compute; reflexivity |].
  exact (conj H1 (conj H2 H3)).
Defined.

Lemma getClient_cache_miss_prompts_witness :
  fst (@tokenFromFile demo.externals (cachePath demo.gopher)
         (snd (tokenCacheFile demo.first_run)))
  = Done (Err (os.PathError "open" (cachePath demo.gopher) os.ENOENT)) /\
  exists later,
    events_of demo.first_run (snd (demo.acquire demo.first_run))
      (Printed (authorize_prompt
                  (oauth2.AuthCodeURL demo.config "state-token"
                                      [oauth2.AccessTypeOffline]))
       :: Scanned (fst (demo.scan (stdin demo.first_run))) :: later) /\
    forallb (fun ev => negb (is_console_read ev)) later = true.
Proof.
  split; [vm_compute; reflexivity|].
  apply (@getClient_cache_miss_prompts demo.externals context_Background
           demo.config demo.first_run demo.gopher
           (os.PathError "open" (cachePath demo.gopher) os.ENOENT));
    [reflexivity | vm_compute; reflexivity].
Defined.

Lemma getClient_exchange_failure_witness :
  demo.scan (stdin demo.bad_code) = (Ok "oops", EmptyString) /\
  fst (demo.acquire demo.bad_code)
  = Fatal ("Unable to retrieve token from web "
           +:+ "oauth2: cannot fetch token: 400 Bad Request") /\
  fs (snd (demo.acquire demo.bad_code)) !! cachePath demo.gopher
  = fs demo.bad_code !! cachePath demo.gopher.
Proof.
  split; [vm_compute; reflexivity|].
  destruct (@getClient_exchange_failure demo.externals context_Background
              demo.config demo.bad_code demo.gopher
              (os.PathError "open" (cachePath demo.gopher) os.ENOENT)
              "oops" EmptyString "oauth2: cannot fetch token: 400 Bad Request")
    as (H1 & _ & _ & _ & H2);
    [reflexivity | vm_compute; reflexivity | vm_compute; reflexivity
    | vm_compute; reflexivity |].
  exact (conj H1 H2).
Defined.


Lemma getClient_overwrites_cache_witness :
  demo.acquire demo.stale
  = (Done (Config_Client context_Background demo.config demo.token),
     snd (demo.acquire demo.stale)) /\
  exists mode,
    fs (snd (demo.acquire demo.stale)) !! cachePath demo.gopher
    = Some (File mode
              (take_bytes
                 (free demo.stale
                  + file_size (fs demo.stale) (cachePath demo.gopher))
                 (@encoding demo.externals demo.token))) /\
    (forall mode0 old,
        fs demo.stale !! cachePath demo.gopher = Some (File mode0 old) ->
        mode = mode0).
Proof.
  split; [vm_compute; reflexivity|].
  destruct (@getClient_overwrites_cache demo.externals context_Background
              demo.config demo.stale demo.gopher "invalid character"
              (Config_Client context_Background demo.config demo.token)
              (snd (demo.acquire demo.stale)))
    as ((mode & H1 & H2 & _) & _);
    [reflexivity | vm_compute; reflexivity | vm_compute; reflexivity |].
  exists mode. exact (conj H1 H2).
Defined.

Lemma main_script_error_not_fatal_witness :
  demo.program demo.installed
  = (Done tt,
     emit (Printed (script.Message demo.script_error))
          (emit (RanScript "Mn_YoQoNj_iufS59FmWsY-JgYYRqhh78z"
                           "getFoldersUnderRoot") demo.installed)) /\
  exit_status (fst (demo.program demo.installed)) = 0%Z.
Proof.
  destruct (@main_script_error_not_fatal demo.externals demo.installed "{}"
              demo.config
              (Config_Client context_Background demo.config demo.token)
              demo.installed
              {| script.service_client :=
                   Config_Client context_Background demo.config demo.token |})
    as (H & _);
    [vm_compute; reflexivity | reflexivity | vm_compute; reflexivity
    | reflexivity |].
  apply (H {| script.Error := Some demo.script_error; script.Response := "" |}
           demo.script_error); reflexivity.
Defined.

(** * Further properties of the code *)

(** ** The cache directory step *)

Section CacheDirectory.

Implicit Types (m : gmap path node) (pre rest p q : path).

(** [MkdirAll] leaves alone what is not below the point it starts from. *)
Lemma mkdir_walk_lookup_shallow perm mask rest pre m q :
  length q <= length pre ->
  fst (os.mkdir_walk perm mask pre rest m) !! q = m !! q.
Proof.
  revert pre m. induction rest as [|c rest IH]; intros pre m Hlen; simpl.
  - reflexivity.
  - assert (Hstep : length q <= length (pre ++ [c]))
      by (rewrite length_app; simpl; lia).
    assert (Hne : pre ++ [c] <> q)
      by (intros <-; rewrite length_app in Hlen; simpl in Hlen; lia).
    destruct (m !! pre) as [[mode|mode data]|]; try reflexivity.
    destruct (os.has_perm mode os.S_IXUSR); [|reflexivity].
    destruct (m !! (pre ++ [c])) as [[mode'|mode' data']|]; try reflexivity.
    + now apply IH.
    + destruct (os.has_perm mode os.S_IWUSR); [|reflexivity].
      rewrite IH by assumption. now rewrite lookup_insert_ne.
Qed.

(** Making the directories a second time makes nothing. *)
Lemma mkdir_walk_twice perm mask rest pre m :
  fst (os.mkdir_walk perm mask pre rest
         (fst (os.mkdir_walk perm mask pre rest m)))
  = fst (os.mkdir_walk perm mask pre rest m).
Proof.
  revert pre m. induction rest as [|c rest IH]; intros pre m.
  - reflexivity.
  - cbn [os.mkdir_walk].
    destruct (m !! pre) as [[mode|mode data]|] eqn:Hpre;
      try (cbn [fst os.mkdir_walk]; now rewrite Hpre).
    destruct (os.has_perm mode os.S_IXUSR) eqn:Hx;
      [|cbn [fst os.mkdir_walk]; now rewrite Hpre, Hx].
    destruct (m !! (pre ++ [c])) as [[mode'|mode' data']|] eqn:Hp.
    + rewrite mkdir_walk_lookup_shallow
        by (rewrite length_app; simpl; lia).
      rewrite Hpre, Hx.
      rewrite mkdir_walk_lookup_shallow by lia. rewrite Hp. apply IH.
    + cbn [fst os.mkdir_walk]. now rewrite Hpre, Hx, Hp.
    + destruct (os.has_perm mode os.S_IWUSR) eqn:Hw;
        [|cbn [fst os.mkdir_walk]; now rewrite Hpre, Hx, Hp, Hw].
      rewrite mkdir_walk_lookup_shallow
        by (rewrite length_app; simpl; lia).
      rewrite lookup_insert_ne
        by (intros E; apply (f_equal length) in E;
            rewrite length_app in E; simpl in E; lia).
      rewrite Hpre, Hx.
      rewrite mkdir_walk_lookup_shallow by lia.
      rewrite lookup_insert_eq. apply IH.
Qed.

(** X1: [tokenCacheFile] can be repeated. A second call returns what the
    first returned and leaves the world the first call left: the
    directories are made once. *)
Theorem tokenCacheFile_idempotent w :
  tokenCacheFile (snd (tokenCacheFile w))
  = (fst (tokenCacheFile w), snd (tokenCacheFile w)).
Proof.
  destruct (current_user w) as [usr|e] eqn:Husr.
  - rewrite (tokenCacheFile_eq w usr Husr). cbn [fst snd].
    rewrite (tokenCacheFile_eq _ usr) by exact Husr.
    simpl. now rewrite mkdir_walk_twice.
  - rewrite (tokenCacheFile_no_user w e Husr). cbn [fst snd].
    now rewrite (tokenCacheFile_no_user w e Husr).
Qed.

(** X2: [tokenCacheFile] only ever adds directories. Every entry of the file
    system is as it was, or was missing and is now a directory of mode 0700
    less the umask; no file is created, no entry changed or removed, and
    the console, the trace and the free space are untouched.  The call
    itself never ends the process. *)
Theorem tokenCacheFile_only_makes_directories w :
  let w' := snd (tokenCacheFile w) in
  (forall q,
      fs w' !! q = fs w !! q \/
      (fs w !! q = None /\
       fs w' !! q = Some (Dir (Z.ldiff (os.octal 7 0 0) (umask w))))) /\
  stdin w' = stdin w /\ trace w' = trace w /\ free w' = free w /\
  exists r, fst (tokenCacheFile w) = Done r.
Proof.
  intros w'. split; [intros q; apply tokenCacheFile_creates|].
  destruct (tokenCacheFile_frame w) as (H1 & H2 & H3 & _).
  repeat split; try assumption.
  destruct (current_user w) as [usr|e] eqn:Husr.
  - rewrite (tokenCacheFile_eq w usr Husr). eauto.
  - rewrite (tokenCacheFile_no_user w e Husr). eauto.
Qed.

End CacheDirectory.

(** ** Reading the cache *)

Section Reading.

Context {ext : Externals}.

(** X3: [tokenFromFile] in full. It never ends the process and leaves the
    world exactly as it found it; it yields a token precisely when the path
    resolves to a regular file that the owner may read and whose contents
    the decoder takes to that token.  A missing file, a file on an
    unsearchable way, an unreadable file, a directory and undecodable
    contents all yield an error. *)
Theorem tokenFromFile_characterised file w :
  snd (tokenFromFile file w) = w /\
  (exists r, fst (tokenFromFile file w) = Done r) /\
  (forall tok,
      fst (tokenFromFile file w) = Done (Ok tok) <->
      exists mode data,
        os.stat (fs w) file = Ok (File mode data) /\
        os.has_perm mode os.S_IRUSR = true /\
        json_Unmarshal data = Ok tok).
Proof.
  rewrite tokenFromFile_eq. cbn [fst snd].
  split; [reflexivity|]. split; [eauto|].
  intros tok. rewrite <- read_answer_Ok.
  split; [intros [= H]; exact H | intros ->; reflexivity].
Qed.

End Reading.

(** ** The interactive flow *)

Section InteractiveFlow.

Context {ext : Externals}.

(** X4: [getTokenFromWeb] in full. It never touches the file system; it
    prints the prompt and reads the console once, consuming one token of
    input; it sends at most one request to the token endpoint, and only
    for the code the console delivered; and it returns a token exactly
    when the console delivered a code that the endpoint answered with that
    token. *)
Theorem getTokenFromWeb_characterised config w :
  let w' := snd (getTokenFromWeb config w) in
  let scanned := fst (scan_token (stdin w)) in
  fs w' = fs w /\ free w' = free w /\
  stdin w' = snd (scan_token (stdin w)) /\
  (exists later,
      events_of w w'
        (Printed (authorize_prompt
                    (oauth2.AuthCodeURL config "state-token"
                                        [oauth2.AccessTypeOffline]))
         :: Scanned scanned :: later) /\
      (later = [] /\ (exists e, scanned = Err e) \/
       exists code,
         scanned = Ok code /\
         later = [Exchanged code
                    (token_endpoint oauth2_NoContext config code)])) /\
  (forall tok,
      fst (getTokenFromWeb config w) = Done tok <->
      exists code,
        scanned = Ok code /\
        token_endpoint oauth2_NoContext config code = Ok tok).
Proof.
  intros w' scanned. subst w' scanned. rewrite getTokenFromWeb_eq. cbn zeta.
  unfold events_of.
  destruct (fst (scan_token (stdin w))) as [code|e].
  - destruct (token_endpoint oauth2_NoContext config code) as [tok|e] eqn:Hex;
      cbn [fst snd]; simpl; rewrite <- !app_assoc; simpl.
    + split; [reflexivity|]. split; [reflexivity|]. split; [reflexivity|].
      split; [eexists; split;
                [reflexivity | right; exists code; now rewrite Hex]|].
      intros tok'. split.
      * intros [= <-]. eauto.
      * intros (code' & [= <-] & H). congruence.
    + split; [reflexivity|]. split; [reflexivity|]. split; [reflexivity|].
      split; [eexists; split;
                [reflexivity | right; exists code; now rewrite Hex]|].
      intros tok'. split; [discriminate|].
      intros (code' & [= <-] & H). congruence.
  - cbn [fst snd]. simpl. rewrite <- !app_assoc. simpl.
    split; [reflexivity|]. split; [reflexivity|]. split; [reflexivity|].
    split; [exists []; split; [reflexivity | left; eauto]|].
    intros tok'. split; [discriminate|]. intros (code & [=] & _).
Qed.

(** X5: no code, no request. When the console read fails, for instance at
    end of input, [getTokenFromWeb] ends the process with a message naming
    the failure; the prompt was printed, nothing was sent to the token
    endpoint and the file system is as before. *)
Theorem getTokenFromWeb_console_failure config w e rest :
  scan_token (stdin w) = (Err e, rest) ->
  let w' := snd (getTokenFromWeb config w) in
  fst (getTokenFromWeb config w)
  = Fatal ("Unable to read authorization code " +:+ e) /\
  events_of w w'
    [Printed (authorize_prompt
                (oauth2.AuthCodeURL config "state-token"
                                    [oauth2.AccessTypeOffline]));
     Scanned (Err e)] /\
  fs w' = fs w.
Proof.
  intros Hscan w'. subst w'. rewrite getTokenFromWeb_eq. cbn zeta.
  rewrite Hscan. cbn [fst snd]. unfold events_of. simpl.
  now rewrite <- !app_assoc.
Qed.

End InteractiveFlow.

(** ** Saving *)

Section Saving.

Context {ext : Externals}.

(** X6: a [saveToken] that cannot open the file changes nothing. When
    [saveToken] ends the process, the message names the open failure, the
    announcement of the path is the only event, and the file system and
    the free space are exactly as before: in particular a cache file that
    is there but may not be written is not emptied. *)
Theorem saveToken_fatal_changes_nothing file tok w msg :
  fst (saveToken file tok w) = Fatal msg ->
  let w' := snd (saveToken file tok w) in
  (exists e, msg = "Unable to cache oauth token: " +:+ e) /\
  fs w' = fs w /\ free w' = free w /\
  events_of w w'
    [Printed ("Saving credential file to: " +:+ path_string file +:+ nl)].
Proof.
  intros Hfatal w'. subst w'.
  destruct (saveToken_cases file tok w)
    as [(e & _ & Hsave) | (mode & _ & _ & Hsave)];
    cbn zeta in Hsave; rewrite Hsave in *; [|discriminate].
  injection Hfatal as <-. cbn [snd]. unfold events_of. simpl. eauto.
Qed.

(** X7: [saveToken] touches one entry. Whatever its outcome, every path
    other than the one it was given holds afterwards what it held before,
    and the console input is not read. *)
Theorem saveToken_touches_one_entry file tok w q :
  q <> file ->
  fs (snd (saveToken file tok w)) !! q = fs w !! q /\
  stdin (snd (saveToken file tok w)) = stdin w.
Proof.
  intros Hq.
  destruct (saveToken_cases file tok w)
    as [(e & _ & Hsave) | (mode & _ & _ & Hsave)];
    cbn zeta in Hsave; rewrite Hsave; cbn [snd]; simpl.
  - now split.
  - split; [|reflexivity]. apply lookup_insert_ne. congruence.
Qed.

(** [Encode] reports its error to the caller; it never ends the process. *)
Lemma json_Encode_returns f tok w :
  exists err w', json_Encode f tok w = (Done err, w').
Proof.
  unfold json_Encode. destruct (json_Marshal tok) as [s|e]; [|eauto].
  unfold bind, ret, os.Write.
  destruct (os.wants_write (os.handle_flag f)); [|eauto].
  destruct (fs w !! os.handle_path f) as [[mode|mode data]|]; eauto.
  destruct (String.length (s +:+ nl) <=? free w); eauto.
Qed.

(** Whether [saveToken] returns does not depend on the token. *)
Lemma saveToken_outcome file tok w :
  fst (saveToken file tok w)
  = match fst (os.OpenFile file
                 (Z.lor os.O_RDWR (Z.lor os.O_CREATE os.O_TRUNC))
                 (os.octal 6 0 0)
                 (emit (Printed ("Saving credential file to: "
                                 +:+ path_string file +:+ nl)) w)) with
    | Done (Ok _) => Done tt
    | Done (Err e) => Fatal ("Unable to cache oauth token: " +:+ e)
    | Fatal m => Fatal m
    end.
Proof.
  unfold saveToken, bind, fmt_Printf.
  destruct (os.OpenFile file _ (os.octal 6 0 0) _) as [[[f|e]|m] w1];
    try reflexivity.
  destruct (json_Encode_returns f tok w1) as (err & w2 & ->).
  reflexivity.
Qed.

(** X8: the last save wins. When a token is saved over an earlier save,
    both calls returning, the file system and the free space are what
    saving the later token alone would have left: nothing of the earlier
    save remains, neither in the file nor in the space accounted for. *)
Theorem saveToken_last_write_wins file tok1 tok2 w :
  fst (saveToken file tok1 w) = Done tt ->
  fst (saveToken file tok2 (snd (saveToken file tok1 w))) = Done tt ->
  fst (saveToken file tok2 w) = Done tt /\
  fs (snd (saveToken file tok2 (snd (saveToken file tok1 w))))
  = fs (snd (saveToken file tok2 w)) /\
  free (snd (saveToken file tok2 (snd (saveToken file tok1 w))))
  = free (snd (saveToken file tok2 w)).
Proof.
  intros H1 H2.
  assert (H0 : fst (saveToken file tok2 w) = Done tt)
    by (rewrite saveToken_outcome in *; exact H1).
  split; [exact H0|].
  destruct (saveToken_cases file tok1 w)
    as [(e & _ & Hs1) | (mode1 & Hwalk1 & Hold1 & Hs1)];
    cbn zeta in Hs1; rewrite Hs1 in *; [discriminate|]. clear H1.
  cbn [snd] in *.
  match type of H2 with
  | context [saveToken file tok2 ?w1] =>
      destruct (saveToken_cases file tok2 w1)
        as [(e & _ & Hs2) | (mode2 & Hwalk2 & Hold2 & Hs2)];
        cbn zeta in Hs2; rewrite Hs2 in *; [discriminate|]
  end.
  clear H2.
  destruct (saveToken_cases file tok2 w)
    as [(e & _ & Hs) | (mode & Hwalk & Hold & Hs)];
    cbn zeta in Hs; rewrite Hs in *; [discriminate|]. clear H0.
  cbn [snd]. simpl fs in *. simpl free in *. simpl umask in *.
  rewrite lookup_insert_eq in Hold2.
  destruct Hold2 as [(old2 & [= <- <-] & _) | (Hnone & _)]; [|discriminate].
  assert (Hmode : mode1 = mode).
  { destruct Hold1 as [(old1 & Hf1 & _) | (Hn1 & ->)],
             Hold as [(old & Hf & _) | (Hn & ->)]; congruence. }
  subst mode1.
  assert (Hroom :
    free w + file_size (fs w) file
    - String.length (take_bytes (free w + file_size (fs w) file)
                                (encoding tok1))
    + file_size (<[file := File mode
                     (take_bytes (free w + file_size (fs w) file)
                                 (encoding tok1))]> (fs w)) file
    = free w + file_size (fs w) file).
  { unfold file_size at 3. rewrite lookup_insert_eq.
    rewrite length_take_bytes. lia. }
  rewrite Hroom. now rewrite insert_insert_eq.
Qed.

End Saving.

(** ** Acquisition as a whole *)

Section Acquisition.

Context {ext : Externals}.

(** With everything on the way to the cache path in place, the directory
    step has nothing to make. *)
Lemma tokenCacheFile_idle_walk w usr :
  current_user w = Ok usr ->
  os.walk (fs w) [] (cachePath usr) = Ok tt ->
  tokenCacheFile w = (Done (Ok (cachePath usr)), w).
Proof.
  intros Husr Hwalk. rewrite (tokenCacheFile_eq w usr Husr).
  unfold cachePath, filepath_Join in Hwalk.
  rewrite (mkdir_walk_noop _ _ _ _ _ _ Hwalk). simpl.
  now rewrite with_fs_same.
Qed.

(** The prompt of a configuration and the announcement of a save. *)
Local Abbreviation prompt config :=
  (Printed (authorize_prompt
              (oauth2.AuthCodeURL config "state-token"
                                  [oauth2.AccessTypeOffline]))).
Local Abbreviation saving usr :=
  (Printed ("Saving credential file to: "
            +:+ path_string (cachePath usr) +:+ nl)).

(** Every run of [getClient] on the miss branch, by what the console and
    the endpoint answer. *)
Lemma getClient_miss_runs ctx config w usr e :
  current_user w = Ok usr ->
  read_answer (fs (snd (tokenCacheFile w))) (cachePath usr) = Err e ->
  let w1 := snd (tokenCacheFile w) in
  let scanned := fst (scan_token (stdin w)) in
  let w2 := emit (Scanned scanned)
              (with_stdin (snd (scan_token (stdin w)))
                 (emit (prompt config) w1)) in
  match scanned with
  | Err e1 =>
      getClient ctx config w
      = (Fatal ("Unable to read authorization code " +:+ e1), w2)
  | Ok code =>
      let r := token_endpoint oauth2_NoContext config code in
      let w3 := emit (Exchanged code r) w2 in
      match r with
      | Err e2 =>
          getClient ctx config w
          = (Fatal ("Unable to retrieve token from web " +:+ e2), w3)
      | Ok tok =>
          getClient ctx config w
          = match saveToken (cachePath usr) tok w3 with
            | (Done _, w4) => (Done (Config_Client ctx config tok), w4)
            | (Fatal msg, w4) => (Fatal msg, w4)
            end
      end
  end.
Proof.
  intros Husr Hread w1 scanned w2.
  rewrite (getClient_miss ctx config w usr e Husr Hread).
  rewrite getTokenFromWeb_eq. cbn zeta.
  destruct (tokenCacheFile_frame w) as (Hin & _). cbn zeta in Hin.
  subst scanned w2 w1. rewrite Hin.
  destruct (fst (scan_token (stdin w))) as [code|e1]; [|reflexivity].
  cbn zeta.
  now destruct (token_endpoint oauth2_NoContext config code) as [tok|e2].
Qed.

(** X9: without a current user nothing is attempted. When [user.Current]
    fails, [tokenCacheFile] hands the error back without making any
    directory and [getClient] ends the process with it: no file system
    entry, no event and no console input is touched. *)
Theorem getClient_fatal_without_user ctx config w e :
  current_user w = Err e ->
  tokenCacheFile w = (Done (Err e), w) /\
  getClient ctx config w
  = (Fatal ("Unable to get path to cached credential file. " +:+ e), w).
Proof.
  intros Husr. split.
  - now apply tokenCacheFile_no_user.
  - now apply getClient_no_user.
Qed.

(** X10: at most one of each. In every run, [getClient] adds to the trace
    nothing at all, or the prompt and one console read, followed if a code
    was read by one request to the token endpoint, followed if a token came
    back by the one announcement of the save.  There is no second prompt,
    read, request or save in any run, and never a remote script call. *)
Theorem getClient_event_shapes ctx config w :
  exists evs,
    events_of w (snd (getClient ctx config w)) evs /\
    (evs = [] \/
     (exists e, evs = [prompt config; Scanned (Err e)]) \/
     (exists code e,
         evs = [prompt config; Scanned (Ok code); Exchanged code (Err e)]) \/
     (exists code tok usr,
         current_user w = Ok usr /\
         evs = [prompt config; Scanned (Ok code); Exchanged code (Ok tok);
                saving usr])).
Proof.
  unfold events_of.
  destruct (current_user w) as [usr|e] eqn:Husr.
  2:{ rewrite (getClient_no_user ctx config w e Husr). exists [].
      split; [now rewrite app_nil_r | now left]. }
  destruct (tokenCacheFile_frame w) as (_ & Htr & _). cbn zeta in Htr.
  destruct (read_answer (fs (snd (tokenCacheFile w))) (cachePath usr))
    as [tok|e] eqn:Hread.
  - rewrite (getClient_found ctx config w usr tok Husr Hread). exists [].
    cbn [snd]. split; [now rewrite Htr, app_nil_r | now left].
  - pose proof (getClient_miss_runs ctx config w usr e Husr Hread) as Hrun.
    cbn zeta in Hrun.
    destruct (fst (scan_token (stdin w))) as [code|e1].
    + destruct (token_endpoint oauth2_NoContext config code) as [tok|e2].
      * rewrite Hrun.
        match goal with
        | |- context [saveToken ?f ?t ?w0] =>
            destruct (saveToken_cases f t w0)
              as [(e3 & _ & ->) | (mode & _ & _ & ->)]
        end;
          (eexists; split;
           [cbn [snd]; simpl trace; rewrite Htr, <- !app_assoc; simpl;
            reflexivity
           | right; right; right; eauto 6]).
      * rewrite Hrun. eexists. split.
        -- cbn [snd]. simpl trace. rewrite Htr, <- !app_assoc. simpl.
           reflexivity.
        -- right. right. left. eauto.
    + rewrite Hrun. eexists. split.
      * cbn [snd]. simpl trace. rewrite Htr, <- !app_assoc. simpl.
        reflexivity.
      * right. left. eauto.
Qed.

(** [getClient] never calls the remote script: the events it adds contain
    no such call. *)
Lemma getClient_adds_no_script_call ctx config w :
  exists evs,
    events_of w (snd (getClient ctx config w)) evs /\
    forall id fn, ~ In (RanScript id fn) evs.
Proof.
  unfold events_of.
  destruct (current_user w) as [usr|e] eqn:Husr.
  2:{ rewrite (getClient_no_user ctx config w e Husr). exists [].
      split; [now rewrite app_nil_r | intros id fn []]. }
  destruct (tokenCacheFile_frame w) as (_ & Htr & _). cbn zeta in Htr.
  destruct (read_answer (fs (snd (tokenCacheFile w))) (cachePath usr))
    as [tok|e] eqn:Hread.
  - rewrite (getClient_found ctx config w usr tok Husr Hread). exists [].
    cbn [snd]. split; [now rewrite Htr, app_nil_r | intros id fn []].
  - pose proof (getClient_miss_runs ctx config w usr e Husr Hread) as Hrun.
    cbn zeta in Hrun.
    destruct (fst (scan_token (stdin w))) as [code|e1];
      [destruct (token_endpoint oauth2_NoContext config code) as [tok|e2]|];
      rewrite Hrun;
      try match goal with
          | |- context [saveToken ?f ?t ?w0] =>
              destruct (saveToken_cases f t w0)
                as [(e3 & _ & ->) | (mode & _ & _ & ->)]
          end;
      (eexists; split;
       [cbn [snd]; simpl trace; rewrite Htr, <- !app_assoc; simpl;
        reflexivity
       | intros id fn Hin; simpl in Hin; intuition discriminate]).
Qed.

(** X11: what [getClient] may change. In every run of a known user, each
    path other than the cache path holds afterwards what it held before,
    or was missing and is now a directory of mode 0700 less the umask:
    [getClient] never removes an entry, never changes a directory, and
    writes to no file but the cache file. *)
Theorem getClient_frame ctx config w usr q :
  current_user w = Ok usr ->
  q <> cachePath usr ->
  let w' := snd (getClient ctx config w) in
  fs w' !! q = fs w !! q \/
  (fs w !! q = None /\
   fs w' !! q = Some (Dir (Z.ldiff (os.octal 7 0 0) (umask w)))).
Proof.
  intros Husr Hq w'. subst w'.
  assert (Hstep : fs (snd (getClient ctx config w)) !! q
                  = fs (snd (tokenCacheFile w)) !! q).
  { destruct (read_answer (fs (snd (tokenCacheFile w))) (cachePath usr))
      as [tok|e] eqn:Hread.
    - now rewrite (getClient_found ctx config w usr tok Husr Hread).
    - pose proof (getClient_miss_runs ctx config w usr e Husr Hread) as Hrun.
      cbn zeta in Hrun.
      destruct (fst (scan_token (stdin w))) as [code|e1];
        [|now rewrite Hrun].
      destruct (token_endpoint oauth2_NoContext config code) as [tok|e2];
        [|now rewrite Hrun].
      rewrite Hrun.
      match goal with
      | |- context [saveToken ?f ?t ?w0] =>
          destruct (saveToken_cases f t w0)
            as [(e3 & _ & ->) | (mode & _ & _ & ->)]
      end; cbn [snd]; simpl fs; [reflexivity|].
      apply lookup_insert_ne. congruence. }
  rewrite Hstep. apply tokenCacheFile_creates.
Qed.


(** [getClient] leaves the identity of the user and the umask alone. *)
Lemma getClient_keeps_user ctx config w :
  current_user (snd (getClient ctx config w)) = current_user w /\
  umask (snd (getClient ctx config w)) = umask w.
Proof.
  destruct (current_user w) as [usr|e] eqn:Husr.
  2:{ rewrite (getClient_no_user ctx config w e Husr). cbn [snd].
      now split. }
  rewrite <- Husr.
  destruct (tokenCacheFile_frame w) as (_ & _ & _ & Hmask & Huser).
  cbn zeta in Hmask, Huser.
  destruct (read_answer (fs (snd (tokenCacheFile w))) (cachePath usr))
    as [tok|e] eqn:Hread.
  - now rewrite (getClient_found ctx config w usr tok Husr Hread).
  - pose proof (getClient_miss_runs ctx config w usr e Husr Hread) as Hrun.
    cbn zeta in Hrun.
    destruct (fst (scan_token (stdin w))) as [code|e1];
      [|now rewrite Hrun].
    destruct (token_endpoint oauth2_NoContext config code) as [tok|e2];
      [|now rewrite Hrun].
    rewrite Hrun.
    match goal with
    | |- context [saveToken ?f ?t ?w0] =>
        destruct (saveToken_cases f t w0)
          as [(e3 & _ & ->) | (mode & _ & _ & ->)]
    end; cbn [snd]; simpl; now split.
Qed.

(** X13: the next run is a cache hit. After a [getClient] that returned,
    given that the codec takes the returned credential to a text and back,
    that the volume had room for the text and that the umask leaves the
    owner's read bit, a further [getClient] on the world the first one left
    returns the same credential at once, for any context and configuration,
    and leaves that world as it is: no prompt, no request, no write. *)
Theorem getClient_next_run_hits ctx config w usr c w1 s ctx' config' :
  current_user w = Ok usr ->
  getClient ctx config w = (Done c, w1) ->
  json_Marshal (client_token c) = Ok s ->
  json_Unmarshal (s +:+ nl) = Ok (client_token c) ->
  String.length (s +:+ nl) <= free w + file_size (fs w) (cachePath usr) ->
  os.has_perm (Z.ldiff (os.octal 6 0 0) (umask w)) os.S_IRUSR = true ->
  getClient ctx' config' w1
  = (Done (Config_Client ctx' config' (client_token c)), w1).
Proof.
  intros Husr Hrun Hmarshal Hback Hroom Hmask.
  pose proof (getClient_cache_guarantee ctx config w usr c w1 s
                Husr Hrun Hmarshal Hback Hroom Hmask) as Hread.
  destruct (getClient_keeps_user ctx config w) as (Huser & _).
  rewrite Hrun in Huser. cbn [snd] in Huser.
  apply (getClient_hit ctx' config' w1 usr); [congruence | exact Hread].
Qed.

(** X14: a directory in place of the cache file. When the cache path is a
    directory, [getClient] never returns: the read fails, the user is
    prompted, and if a token is obtained [saveToken] cannot open the path
    for writing.  The file system is exactly as before in every case. *)
Theorem getClient_cache_path_is_directory ctx config w usr mode :
  current_user w = Ok usr ->
  os.stat (fs w) (cachePath usr) = Ok (Dir mode) ->
  (exists msg, fst (getClient ctx config w) = Fatal msg) /\
  fs (snd (getClient ctx config w)) = fs w /\
  (forall code tok,
      fst (scan_token (stdin w)) = Ok code ->
      token_endpoint oauth2_NoContext config code = Ok tok ->
      fst (getClient ctx config w)
      = Fatal ("Unable to cache oauth token: "
               +:+ os.PathError "open" (cachePath usr) os.EISDIR)).
Proof.
  intros Husr Hstat. unfold os.stat in Hstat.
  destruct (os.walk (fs w) [] (cachePath usr)) as [[]|] eqn:Hwalk;
    [|discriminate].
  destruct (fs w !! cachePath usr) as [[mode'|mode' data]|] eqn:Hfile;
    try discriminate.
  pose proof (tokenCacheFile_idle_walk w usr Husr Hwalk) as Hidle.
  assert (Hread : exists e,
             read_answer (fs (snd (tokenCacheFile w))) (cachePath usr) = Err e).
  { rewrite Hidle. cbn [snd]. unfold read_answer, open_answer.
    rewrite Hwalk, Hfile. simpl.
    destruct (os.has_perm mode' os.S_IRUSR); eauto. }
  destruct Hread as [e Hread].
  pose proof (getClient_miss_runs ctx config w usr e Husr Hread) as Hrun.
  cbn zeta in Hrun. rewrite Hidle in Hrun. cbn [snd] in Hrun.
  destruct (fst (scan_token (stdin w))) as [code|e1].
  2:{ rewrite Hrun. cbn [fst snd]. repeat split; eauto. discriminate. }
  destruct (token_endpoint oauth2_NoContext config code) as [tok|e2] eqn:Hex.
  2:{ rewrite Hrun. cbn [fst snd]. repeat split; eauto.
      intros code' tok' [= <-] H. congruence. }
  assert (Hsave :
    forall w0, fs w0 = fs w ->
      saveToken (cachePath usr) tok w0
      = (Fatal ("Unable to cache oauth token: "
                +:+ os.PathError "open" (cachePath usr) os.EISDIR),
         emit (saving usr) w0)).
  { intros w0 Hfs. unfold saveToken, bind, fmt_Printf, os.OpenFile.
    simpl fs. rewrite Hfs, Hwalk, Hfile.
    change (os.wants_write
              (Z.lor os.O_RDWR (Z.lor os.O_CREATE os.O_TRUNC))) with true.
    reflexivity. }
  rewrite Hrun, Hsave by reflexivity. cbn [fst snd].
  repeat split; eauto.
Qed.

(** X15: a cache directory that cannot be reached shows late. When, after
    the directory step, the way to the cache path does not resolve (the
    error of [MkdirAll] was dropped), [tokenCacheFile] still reports
    success; given a code and a token for it, [getClient] prompts, reads,
    exchanges the code, and only then ends the process, when [saveToken]
    cannot open the file. *)
Theorem getClient_unreachable_cache_directory ctx config w usr e code rest tok :
  current_user w = Ok usr ->
  os.walk (fs (snd (tokenCacheFile w))) [] (cachePath usr) = Err e ->
  scan_token (stdin w) = (Ok code, rest) ->
  token_endpoint oauth2_NoContext config code = Ok tok ->
  fst (tokenCacheFile w) = Done (Ok (cachePath usr)) /\
  fst (getClient ctx config w)
  = Fatal ("Unable to cache oauth token: "
           +:+ os.PathError "open" (cachePath usr) e) /\
  events_of w (snd (getClient ctx config w))
    [prompt config; Scanned (Ok code); Exchanged code (Ok tok); saving usr] /\
  fs (snd (getClient ctx config w)) = fs (snd (tokenCacheFile w)).
Proof.
  intros Husr Hwalk Hscan Hex.
  split; [now rewrite (tokenCacheFile_eq w usr Husr)|].
  assert (Hread :
    read_answer (fs (snd (tokenCacheFile w))) (cachePath usr)
    = Err (os.PathError "open" (cachePath usr) e)).
  { unfold read_answer, open_answer. now rewrite Hwalk. }
  pose proof (getClient_miss_runs ctx config w usr _ Husr Hread) as Hrun.
  cbn zeta in Hrun. rewrite Hscan in Hrun. cbn [fst snd] in Hrun.
  rewrite Hex in Hrun.
  destruct (tokenCacheFile_frame w) as (_ & Htr & _). cbn zeta in Htr.
  assert (Hsave :
    forall w0, fs w0 = fs (snd (tokenCacheFile w)) ->
      saveToken (cachePath usr) tok w0
      = (Fatal ("Unable to cache oauth token: "
                +:+ os.PathError "open" (cachePath usr) e),
         emit (saving usr) w0)).
  { intros w0 Hfs. unfold saveToken, bind, fmt_Printf, os.OpenFile.
    simpl fs. now rewrite Hfs, Hwalk. }
  rewrite Hrun, Hsave by reflexivity. cbn [fst snd].
  unfold events_of. simpl. rewrite Htr, <- !app_assoc. simpl.
  repeat split.
Qed.

End Acquisition.

(** ** The program as a whole *)

Section WholeProgram.

Context {ext : Externals}.

Local Abbreviation scriptId := "Mn_YoQoNj_iufS59FmWsY-JgYYRqhh78z"%string.
Local Abbreviation scope := "https://www.googleapis.com/auth/drive"%string.
Local Abbreviation request :=
  {| script.Function_ := "getFoldersUnderRoot" |}.

(** [main], step by step. *)
Lemma main_eq w :
  main w =
  match fst (ioutil_ReadFile "client_secret.json" w) with
  | Fatal msg => (Fatal msg, w)
  | Done (Err e) => (Fatal ("Unable to read client secret file: " +:+ e), w)
  | Done (Ok b) =>
      match google_ConfigFromJSON b [scope] with
      | Err e =>
          (Fatal ("Unable to parse client secret file to config: " +:+ e), w)
      | Ok config =>
          match getClient context_Background config w with
          | (Fatal msg, w1) => (Fatal msg, w1)
          | (Done client, w1) =>
              match script_New client with
              | Err e =>
                  (Fatal ("Unable to retrieve script Client " +:+ e), w1)
              | Ok srv =>
                  let called :=
                    emit (RanScript scriptId "getFoldersUnderRoot") w1 in
                  match scripts_run srv scriptId request with
                  | Err e =>
                      (Fatal ("Unable to execute Apps Script function. "
                              +:+ e), called)
                  | Ok resp =>
                      (Done tt,
                       emit (Printed
                               match script.Error resp with
                               | Some st => format_Status st
                               | None => RawMessage_MarshalJSON
                                           (script.Response resp)
                               end) called)
                  end
              end
          end
      end
  end.
Proof.
  destruct (ioutil_ReadFile_pure "client_secret.json" w) as (Hw & r & Hr).
  unfold main, bind.
  destruct (ioutil_ReadFile "client_secret.json" w) as [o w0].
  cbn [fst snd] in *. subst o w0.
  destruct r as [b|e]; [|reflexivity].
  destruct (google_ConfigFromJSON b [scope]) as [config|e]; [|reflexivity].
  unfold bind.
  destruct (getClient context_Background config w) as [[client|msg] w1];
    [|reflexivity].
  destruct (script_New client) as [srv|e]; [|reflexivity].
  unfold Scripts_Run_Do, fmt_Printf.
  destruct (scripts_run srv scriptId request) as [resp|e]; [|reflexivity].
  now destruct (script.Error resp).
Qed.

(** X16: configuration errors stop everything. When the client secret file
    cannot be read, or is read but not accepted as a configuration, [main]
    ends the process with a message naming the failure before anything
    else happens: the world is exactly as it was, with no directory made,
    no prompt and no request. *)
Theorem main_configuration_errors w :
  (forall e,
      fst (ioutil_ReadFile "client_secret.json" w) = Done (Err e) ->
      main w = (Fatal ("Unable to read client secret file: " +:+ e), w)) /\
  (forall b e,
      fst (ioutil_ReadFile "client_secret.json" w) = Done (Ok b) ->
      google_ConfigFromJSON b [scope] = Err e ->
      main w
      = (Fatal ("Unable to parse client secret file to config: " +:+ e), w)).
Proof.
  split.
  - intros e Hfile. now rewrite main_eq, Hfile.
  - intros b e Hfile Hconfig. now rewrite main_eq, Hfile, Hconfig.
Qed.

(** X17: the result is printed as it came. Once the configuration is read,
    the client obtained and the service built, a reply without error makes
    [main] print the raw response and return: the process exits with
    status 0, the remote call and the print being the last two events. *)
Theorem main_prints_response w b config client w1 srv resp :
  fst (ioutil_ReadFile "client_secret.json" w) = Done (Ok b) ->
  google_ConfigFromJSON b [scope] = Ok config ->
  getClient context_Background config w = (Done client, w1) ->
  script_New client = Ok srv ->
  scripts_run srv scriptId request = Ok resp ->
  script.Error resp = None ->
  fst (main w) = Done tt /\
  exit_status (fst (main w)) = 0%Z /\
  events_of w1 (snd (main w))
    [RanScript scriptId "getFoldersUnderRoot";
     Printed (RawMessage_MarshalJSON (script.Response resp))] /\
  fs (snd (main w)) = fs w1.
Proof.
  intros Hfile Hconfig Hclient Hsrv Hrun Herr.
  rewrite main_eq, Hfile, Hconfig, Hclient, Hsrv. cbn zeta.
  rewrite Hrun, Herr. cbn [fst snd]. unfold events_of. simpl.
  now rewrite <- app_assoc.
Qed.

(** X18: no remote call without a client. When [getClient] ends the
    process, or the service cannot be built from the client, [main] ends
    with that failure and the world [getClient] left: the remote function
    is not called. *)
Theorem main_stops_before_call w b config :
  fst (ioutil_ReadFile "client_secret.json" w) = Done (Ok b) ->
  google_ConfigFromJSON b [scope] = Ok config ->
  (forall msg w1,
      getClient context_Background config w = (Fatal msg, w1) ->
      main w = (Fatal msg, w1)) /\
  (forall client w1 e,
      getClient context_Background config w = (Done client, w1) ->
      script_New client = Err e ->
      main w = (Fatal ("Unable to retrieve script Client " +:+ e), w1)) /\
  (forall id fn,
      In (RanScript id fn)
         (trace (snd (getClient context_Background config w))) ->
      In (RanScript id fn) (trace w)).
Proof.
  intros Hfile Hconfig. split; [|split].
  - intros msg w1 Hclient. now rewrite main_eq, Hfile, Hconfig, Hclient.
  - intros client w1 e Hclient Hsrv.
    now rewrite main_eq, Hfile, Hconfig, Hclient, Hsrv.
  - intros id fn Hin.
    destruct (getClient_adds_no_script_call context_Background config w)
      as (evs & Hevs & Hclean).
    unfold events_of in Hevs. rewrite Hevs in Hin.
    apply in_app_or in Hin. destruct Hin as [Hin|Hin]; [exact Hin|].
    now apply Hclean in Hin.
Qed.

(** X19: one remote call at most, and last. In every run of [main] the
    events added to the trace are those of the acquisition, which contain
    no remote call, followed by nothing, or by the one call of the fixed
    function of the fixed script, or by that call and one print of its
    outcome; [main] returns exactly in the last case. *)
Theorem main_calls_at_most_once w :
  exists before tail,
    events_of w (snd (main w)) (before ++ tail) /\
    (forall id fn, ~ In (RanScript id fn) before) /\
    (tail = [] \/
     tail = [RanScript scriptId "getFoldersUnderRoot"] \/
     exists out, tail = [RanScript scriptId "getFoldersUnderRoot";
                         Printed out]) /\
    (fst (main w) = Done tt <->
     exists out, tail = [RanScript scriptId "getFoldersUnderRoot";
                         Printed out]).
Proof.
  assert (Hnothing :
    forall msg, exists before tail,
      events_of w w (before ++ tail) /\
      (forall id fn, ~ In (RanScript id fn) before) /\
      (tail = [] \/
       tail = [RanScript scriptId "getFoldersUnderRoot"] \/
       exists out, tail = [RanScript scriptId "getFoldersUnderRoot";
                           Printed out]) /\
      (@Fatal unit msg = Done tt <->
       exists out, tail = [RanScript scriptId "getFoldersUnderRoot";
                           Printed out])).
  { intros msg. exists [], []. unfold events_of.
    split; [now rewrite app_nil_r|]. split; [intros id fn []|].
    split; [now left|]. split; [discriminate | intros [out [=]]]. }
  rewrite main_eq.
  destruct (fst (ioutil_ReadFile "client_secret.json" w)) as [[b|e]|msg];
    try apply Hnothing.
  destruct (google_ConfigFromJSON b [scope]) as [config|e];
    try apply Hnothing.
  destruct (getClient_adds_no_script_call context_Background config w)
    as (evs & Hevs & Hclean).
  unfold events_of in *.
  destruct (getClient context_Background config w) as [[client|msg] w1];
    cbn [snd] in Hevs.
  2:{ exists evs, []. cbn [fst snd]. rewrite app_nil_r.
      split; [exact Hevs|]. split; [exact Hclean|]. split; [now left|].
      split; [discriminate | intros [out [=]]]. }
  destruct (script_New client) as [srv|e].
  2:{ exists evs, []. cbn [fst snd]. rewrite app_nil_r.
      split; [exact Hevs|]. split; [exact Hclean|]. split; [now left|].
      split; [discriminate | intros [out [=]]]. }
  cbn zeta.
  destruct (scripts_run srv scriptId request) as [resp|e].
  - eexists evs, [_; _]. cbn [fst snd]. simpl trace. rewrite Hevs.
    rewrite <- !app_assoc. simpl.
    split; [reflexivity|]. split; [exact Hclean|].
    split; [right; right; eauto|]. split; eauto.
  - exists evs, [RanScript scriptId "getFoldersUnderRoot"].
    cbn [fst snd]. simpl trace. rewrite Hevs, <- app_assoc.
    split; [reflexivity|]. split; [exact Hclean|].
    split; [right; now left|].
    split; [discriminate | intros [out [=]]].
Qed.

End WholeProgram.

(** ** These properties at work on the concrete machines *)

Lemma getTokenFromWeb_console_failure_witness :
  demo.scan (stdin demo.no_input) = (Err "EOF", EmptyString) /\
  fst (@getTokenFromWeb demo.externals demo.config demo.no_input)
  = Fatal ("Unable to read authorization code " +:+ "EOF") /\
  fs (snd (@getTokenFromWeb demo.externals demo.config demo.no_input))
  = fs demo.no_input.
Proof.
  split; [reflexivity|].
  destruct (@getTokenFromWeb_console_failure demo.externals demo.config
              demo.no_input "EOF" EmptyString) as (H1 & _ & H2);
    [reflexivity|].
  exact (conj H1 H2).
Defined.

Lemma saveToken_fatal_changes_nothing_witness :
  fst (@saveToken demo.externals (cachePath demo.gopher) demo.token
         demo.read_only_cache)
  = Fatal ("Unable to cache oauth token: "
           +:+ os.PathError "open" (cachePath demo.gopher) os.EACCES) /\
  fs (snd (@saveToken demo.externals (cachePath demo.gopher) demo.token
             demo.read_only_cache))
  = fs demo.read_only_cache.
Proof.
  assert (H : fst (@saveToken demo.externals (cachePath demo.gopher)
                     demo.token demo.read_only_cache)
              = Fatal ("Unable to cache oauth token: "
                       +:+ os.PathError "open" (cachePath demo.gopher)
                             os.EACCES))
    by (vm_compute; reflexivity).
  split; [exact H|].
  exact (proj1 (proj2 (@saveToken_fatal_changes_nothing demo.externals
                         (cachePath demo.gopher) demo.token
                         demo.read_only_cache _ H))).
Defined.

Lemma saveToken_touches_one_entry_witness :
  tokenCacheDir demo.gopher <> cachePath demo.gopher /\
  fs (snd (@saveToken demo.externals (cachePath demo.gopher) demo.token
             demo.stale)) !! tokenCacheDir demo.gopher
  = fs demo.stale !! tokenCacheDir demo.gopher.
Proof.
  assert (H : tokenCacheDir demo.gopher <> cachePath demo.gopher)
    by (vm_compute; discriminate).
  split; [exact H|].
  exact (proj1 (@saveToken_touches_one_entry demo.externals
                  (cachePath demo.gopher) demo.token demo.stale
                  (tokenCacheDir demo.gopher) H)).
Defined.

Lemma saveToken_last_write_wins_witness :
  fs (snd (@saveToken demo.externals (cachePath demo.gopher) demo.token2
             (snd (@saveToken demo.externals (cachePath demo.gopher)
                     demo.token demo.stale))))
  = fs (snd (@saveToken demo.externals (cachePath demo.gopher) demo.token2
               demo.stale)) /\
  free (snd (@saveToken demo.externals (cachePath demo.gopher) demo.token2
               (snd (@saveToken demo.externals (cachePath demo.gopher)
                       demo.token demo.stale))))
  = free (snd (@saveToken demo.externals (cachePath demo.gopher) demo.token2
                 demo.stale)).
Proof.
  apply (@saveToken_last_write_wins demo.externals (cachePath demo.gopher)
           demo.token demo.token2 demo.stale);
    vm_compute; reflexivity.
Defined.

Lemma getClient_fatal_without_user_witness :
  demo.acquire demo.no_user
  = (Fatal ("Unable to get path to cached credential file. "
            +:+ "user: Current not implemented on linux/amd64"),
     demo.no_user).
Proof.
  apply (@getClient_fatal_without_user demo.externals context_Background
           demo.config demo.no_user
           "user: Current not implemented on linux/amd64").
  reflexivity.
Defined.

Lemma getClient_frame_witness :
  fs demo.first_run !! tokenCacheDir demo.gopher = None /\
  (fs (snd (demo.acquire demo.first_run)) !! tokenCacheDir demo.gopher
   = fs demo.first_run !! tokenCacheDir demo.gopher \/
   (fs demo.first_run !! tokenCacheDir demo.gopher = None /\
    fs (snd (demo.acquire demo.first_run)) !! tokenCacheDir demo.gopher
    = Some (Dir (Z.ldiff (os.octal 7 0 0) (umask demo.first_run))))).
Proof.
  split; [vm_compute; reflexivity|].
  apply (@getClient_frame demo.externals context_Background demo.config
           demo.first_run demo.gopher (tokenCacheDir demo.gopher));
    [reflexivity | vm_compute; discriminate].
Defined.


Lemma getClient_next_run_hits_witness :
  demo.acquire (snd (demo.acquire demo.first_run))
  = (Done (Config_Client context_Background demo.config demo.token),
     snd (demo.acquire demo.first_run)).
Proof.
  apply (@getClient_next_run_hits demo.externals context_Background
           demo.config demo.first_run demo.gopher
           (Config_Client context_Background demo.config demo.token)
           (snd (demo.acquire demo.first_run)) (demo.render demo.token)
           context_Background demo.config);
    try (vm_compute; reflexivity).
  vm_compute. lia.
Defined.

Lemma getClient_cache_path_is_directory_witness :
  os.stat (fs demo.cache_is_dir) (cachePath demo.gopher)
  = Ok (Dir (os.octal 7 0 0)) /\
  (exists msg, fst (demo.acquire demo.cache_is_dir) = Fatal msg) /\
  fs (snd (demo.acquire demo.cache_is_dir)) = fs demo.cache_is_dir.
Proof.
  assert (H : os.stat (fs demo.cache_is_dir) (cachePath demo.gopher)
              = Ok (Dir (os.octal 7 0 0)))
    by (vm_compute; reflexivity).
  split; [exact H|].
  destruct (@getClient_cache_path_is_directory demo.externals
              context_Background demo.config demo.cache_is_dir demo.gopher
              (os.octal 7 0 0) eq_refl H) as (H1 & H2 & _).
  exact (conj H1 H2).
Defined.

Lemma getClient_unreachable_cache_directory_witness :
  os.walk (fs (snd (tokenCacheFile demo.locked_root))) []
          (cachePath demo.gopher) = Err os.ENOENT /\
  fst (tokenCacheFile demo.locked_root) = Done (Ok (cachePath demo.gopher)) /\
  fst (demo.acquire demo.locked_root)
  = Fatal ("Unable to cache oauth token: "
           +:+ os.PathError "open" (cachePath demo.gopher) os.ENOENT).
Proof.
  assert (H : os.walk (fs (snd (tokenCacheFile demo.locked_root))) []
                      (cachePath demo.gopher) = Err os.ENOENT)
    by (vm_compute; reflexivity).
  split; [exact H|].
  destruct (@getClient_unreachable_cache_directory demo.externals
              context_Background demo.config demo.locked_root demo.gopher
              os.ENOENT "4/valid" EmptyString demo.token eq_refl H)
    as (H1 & H2 & _); [vm_compute; reflexivity | reflexivity |].
  exact (conj H1 H2).
Defined.

Lemma main_configuration_errors_witness :
  demo.program demo.first_run
  = (Fatal ("Unable to read client secret file: "
            +:+ "open client_secret.json: no such file or directory"),
     demo.first_run) /\
  @main demo.externals_bad_secret demo.installed
  = (Fatal ("Unable to parse client secret file to config: "
            +:+ "oauth2/google: no credentials found"),
     demo.installed).
Proof.
  split.
  - apply (proj1 (@main_configuration_errors demo.externals demo.first_run)).
    vm_compute; reflexivity.
  - apply (proj2 (@main_configuration_errors demo.externals_bad_secret
                    demo.installed) "{}");
      [vm_compute; reflexivity | reflexivity].
Defined.

Lemma main_prints_response_witness :
  fst (@main demo.externals_reply demo.installed) = Done tt /\
  exit_status (fst (@main demo.externals_reply demo.installed)) = 0%Z /\
  events_of demo.installed (snd (@main demo.externals_reply demo.installed))
    [RanScript "Mn_YoQoNj_iufS59FmWsY-JgYYRqhh78z" "getFoldersUnderRoot";
     Printed "{}"].
Proof.
  destruct (@main_prints_response demo.externals_reply demo.installed "{}"
              demo.config
              (Config_Client context_Background demo.config demo.token)
              demo.installed
              {| script.service_client :=
                   Config_Client context_Background demo.config demo.token |}
              {| script.Error := None; script.Response := "{}" |})
    as (H1 & H2 & H3 & _);
    [vm_compute; reflexivity | reflexivity | vm_compute; reflexivity
    | reflexivity | reflexivity | reflexivity |].
  exact (conj H1 (conj H2 H3)).
Defined.

Lemma main_stops_before_call_witness :
  demo.program demo.rejected
  = (Fatal ("Unable to retrieve token from web "
            +:+ "oauth2: cannot fetch token: 400 Bad Request"),
     snd (demo.acquire demo.rejected)).
Proof.
  apply (proj1 (@main_stops_before_call demo.externals demo.rejected "{}"
                  demo.config ltac:(vm_compute; reflexivity) eq_refl)).
  vm_compute; reflexivity.
Defined.
